(** * Feedback-to-ticket pipeline: a shallow embedding of [main_app.py]

    The development follows the source file top to bottom:

    - [PyStr]   the operations on Python [str] that the pipeline uses
                ([in], [find], [rfind], slicing, [strip]);
    - [JSON]    the values [json.loads] returns, with the dynamic
                operations the pipeline applies to them;
    - [Json]    a concrete decoder and encoder for JSON text, used to run
                the pipeline on concrete messages;
    - the pipeline: [process_single_item] and [main], over an arbitrary
                decoder and an arbitrary message stream;
    - [Scheduler] the round-robin deliberation, which the source delegates
                to its chat library;
    - [Spec]    the notions of the specification the source is compared to;
    - [Layout]  the fixed parts of the task message and a few further
                notions used to state properties;
    - the facts about each of these, and the properties of the pipeline.

    Python strings are modelled as byte strings holding the UTF-8 encoding
    of the text.  The characters the pipeline searches for are ASCII, so
    searching and slicing by byte position select the same text as
    searching and slicing by code point. *)

From Stdlib Require Import String Ascii List ZArith NArith Bool Lia Arith.
Import ListNotations.

Local Open Scope string_scope.
Local Open Scope list_scope.

Set Implicit Arguments.

(* ------------------------------------------------------------------------- *)
(** * Python string operations *)
(* ------------------------------------------------------------------------- *)

Module PyStr.

Definition dquote : ascii := "034"%char.
Definition newline : ascii := "010"%char.

(** A one-character string. *)
Definition char (c : ascii) : string := String c EmptyString.

(** [sub in s] *)
Fixpoint contains (sub s : string) : bool :=
  if prefix sub s then true
  else match s with
       | EmptyString => false
       | String _ t => contains sub t
       end.

(** [s.find(sub)]: the lowest index at which [sub] occurs, [-1] if none.
    [i] is the index of the head of [s] in the whole string. *)
Fixpoint find_from (sub s : string) (i : Z) : Z :=
  if prefix sub s then i
  else match s with
       | EmptyString => (-1)%Z
       | String _ t => find_from sub t (i + 1)
       end.

Definition find (s sub : string) : Z := find_from sub s 0.

(** [s.rfind(sub)]: the highest index at which [sub] occurs, [-1] if
    none.  [best] is the highest index seen so far. *)
Fixpoint rfind_from (sub s : string) (i best : Z) : Z :=
  let best' := if prefix sub s then i else best in
  match s with
  | EmptyString => best'
  | String _ t => rfind_from sub t (i + 1) best'
  end.

Definition rfind (s sub : string) : Z := rfind_from sub s 0 (-1).

(** Slice bounds: a negative bound counts from the end, and every bound
    is clamped to [0 .. len]. *)
Definition clamp (len i : Z) : Z :=
  if (i <? 0)%Z then Z.max 0 (i + len) else Z.min i len.

(** [s[start:stop]] *)
Definition slice (s : string) (start stop : Z) : string :=
  let len := Z.of_nat (String.length s) in
  let lo := clamp len start in
  let hi := clamp len stop in
  substring (Z.to_nat lo) (Z.to_nat (hi - lo)) s.

Definition rev (s : string) : string :=
  string_of_list_ascii (List.rev (list_ascii_of_string s)).

(** [str(n)] for a natural number. *)
Fixpoint digits_of (fuel n : nat) (acc : string) : string :=
  let acc' := String (ascii_of_nat (48 + n mod 10)) acc in
  match fuel with
  | O => acc'
  | S fuel' => if Nat.eqb (n / 10) 0 then acc' else digits_of fuel' (n / 10) acc'
  end.

Definition of_nat (n : nat) : string := digits_of n n "".

Definition of_Z (z : Z) : string :=
  if (z <? 0)%Z then "-" ++ of_nat (Z.to_nat (- z)) else of_nat (Z.to_nat z).

Definition byte (n : N) : ascii := ascii_of_N n.

(** UTF-8 encoding of a code point; a lone surrogate takes the
    three-byte form. *)
Definition utf8 (cp : N) : string :=
  if (cp <? 128)%N then String (byte cp) EmptyString
  else if (cp <? 2048)%N then
    String (byte (192 + cp / 64)) (String (byte (128 + cp mod 64)) EmptyString)
  else if (cp <? 65536)%N then
    String (byte (224 + cp / 4096))
      (String (byte (128 + (cp / 64) mod 64))
         (String (byte (128 + cp mod 64)) EmptyString))
  else
    String (byte (240 + cp / 262144))
      (String (byte (128 + (cp / 4096) mod 64))
         (String (byte (128 + (cp / 64) mod 64))
            (String (byte (128 + cp mod 64)) EmptyString))).

(** The characters [str.strip] removes: those for which [str.isspace]
    holds, as code points. *)
Definition whitespace : list N :=
  [9; 10; 11; 12; 13; 28; 29; 30; 31; 32; 133; 160; 5760;
   8192; 8193; 8194; 8195; 8196; 8197; 8198; 8199; 8200; 8201; 8202;
   8232; 8233; 8239; 8287; 12288]%N.

(** [s] without the first of [tokens] that it starts with. *)
Fixpoint drop_token (tokens : list string) (s : string) : option string :=
  match tokens with
  | [] => None
  | t :: rest =>
      if prefix t s then Some (substring (String.length t) (String.length s) s)
      else drop_token rest s
  end.

Fixpoint lstrip_tokens (fuel : nat) (tokens : list string) (s : string) : string :=
  match fuel with
  | O => s
  | S fuel' =>
      match drop_token tokens s with
      | Some r => lstrip_tokens fuel' tokens r
      | None => s
      end
  end.

Definition lstrip (s : string) : string :=
  lstrip_tokens (String.length s) (map utf8 whitespace) s.

Definition rstrip (s : string) : string :=
  rev (lstrip_tokens (String.length s) (map (fun cp => rev (utf8 cp)) whitespace) (rev s)).

(** [s.strip()] *)
Definition strip (s : string) : string := rstrip (lstrip s).

End PyStr.

(* ------------------------------------------------------------------------- *)
(** * JSON values *)
(* ------------------------------------------------------------------------- *)

(** What [json.loads] can return.  A [dict] keeps its insertion order, so
    it is an association list; a [float] is kept as the literal that
    denotes it. *)
#[warning="-register-all"]
Inductive JSON : Type :=
| JNull
| JBool (b : bool)
| JInt (z : Z)
| JFloat (literal : string)
| JString (s : string)
| JArray (items : list JSON)
| JObject (members : list (string * JSON)).

Definition dict := list (string * JSON).

(** Python's exceptions, as far as the pipeline tells them apart: it only
    ever prints their message. *)
Inductive Exn : Type :=
| TypeError (msg : string)
| AttributeError (msg : string)
| GenerationError (msg : string)
| OtherError (msg : string).

Definition exn_message (e : Exn) : string :=
  match e with
  | TypeError m | AttributeError m | GenerationError m | OtherError m => m
  end.

(** The outcome of an expression that may raise. *)
Inductive Result (A : Type) : Type :=
| Ok (a : A)
| Raise (e : Exn).

Arguments Ok {A} a.
Arguments Raise {A} e.

Module Dict.

Fixpoint get (d : dict) (key : string) : option JSON :=
  match d with
  | [] => None
  | (k, v) :: rest => if String.eqb k key then Some v else get rest key
  end.

Definition mem (d : dict) (key : string) : bool :=
  match get d key with Some _ => true | None => false end.

(** [d[key] = v]: a key already present keeps its place. *)
Fixpoint set (d : dict) (key : string) (v : JSON) : dict :=
  match d with
  | [] => [(key, v)]
  | (k, w) :: rest =>
      if String.eqb k key then (k, v) :: rest else (k, w) :: set rest key v
  end.

End Dict.

Module Py.

Definition is_title (v : JSON) : bool :=
  match v with
  | JString s => String.eqb s "title"
  | _ => false
  end.

(** ["title" in data], for whatever [data] is: a key of a dict, an
    element of a list, a substring of a string; the other values are not
    containers and the test raises. *)
Definition title_in (data : JSON) : Result bool :=
  match data with
  | JObject d => Ok (Dict.mem d "title")
  | JArray items => Ok (existsb is_title items)
  | JString s => Ok (PyStr.contains "title" s)
  | _ => Raise (TypeError "argument is not iterable")
  end.

(** A float literal denotes zero when its mantissa has no digit other
    than 0.  (Rounding a tiny literal down to zero is not modelled.) *)
Fixpoint mantissa_nonzero (lit : string) : bool :=
  match lit with
  | EmptyString => false
  | String c t =>
      if (Ascii.eqb c "e"%char || Ascii.eqb c "E"%char)%bool then false
      else if (Nat.leb 49 (nat_of_ascii c) && Nat.leb (nat_of_ascii c) 57)%bool then true
      else if (Ascii.eqb c "N"%char || Ascii.eqb c "I"%char)%bool then true
      else mantissa_nonzero t
  end.

(** [bool(v)], the test behind [if not final_json]. *)
Definition truthy (v : JSON) : bool :=
  match v with
  | JNull => false
  | JBool b => b
  | JInt z => negb (z =? 0)%Z
  | JFloat lit => mantissa_nonzero lit
  | JString s => negb (String.eqb s "")
  | JArray items => match items with [] => false | _ => true end
  | JObject d => match d with [] => false | _ => true end
  end.

(** [result.get(key, default)]; only a dict has the method. *)
Definition get (result : JSON) (key : string) (default : JSON) : Result JSON :=
  match result with
  | JObject d =>
      Ok (match Dict.get d key with Some v => v | None => default end)
  | _ => Raise (AttributeError "object has no attribute 'get'")
  end.

End Py.

(* ------------------------------------------------------------------------- *)
(** * A decoder and an encoder for JSON text *)
(* ------------------------------------------------------------------------- *)

(** [Json.loads] follows the scanner of Python's [json] module: the same
    grammar, the same order of tests, the last of two equal keys winning.
    It differs from the library on texts nested deeper than the
    interpreter's recursion limit and on integers longer than its digit
    limit, both of which the library rejects.  The properties of the
    pipeline are stated for an arbitrary decoder; this one serves to run the
    pipeline on concrete messages. *)
Module Json.

Local Open Scope char_scope.

Definition is_ws (c : ascii) : bool :=
  (Ascii.eqb c " " || Ascii.eqb c "009" || Ascii.eqb c "010" || Ascii.eqb c "013")%bool.

Fixpoint skip_ws (s : string) : string :=
  match s with
  | String c t => if is_ws c then skip_ws t else s
  | EmptyString => s
  end.

Definition is_digit (c : ascii) : bool :=
  (Nat.leb 48 (nat_of_ascii c) && Nat.leb (nat_of_ascii c) 57)%bool.

(** The longest run of digits at the head of [s], and what follows. *)
Fixpoint span_digits (s : string) : string * string :=
  match s with
  | String c t =>
      if is_digit c then let (ds, r) := span_digits t in (String c ds, r)
      else (EmptyString, s)
  | EmptyString => (EmptyString, s)
  end.

Fixpoint Z_of_digits (ds : string) (acc : Z) : Z :=
  match ds with
  | String c t => Z_of_digits t (10 * acc + Z.of_nat (nat_of_ascii c - 48))
  | EmptyString => acc
  end.

Definition hex_value (c : ascii) : option N :=
  let n := N_of_ascii c in
  if (48 <=? n)%N && (n <=? 57)%N then Some (n - 48)%N
  else if (97 <=? n)%N && (n <=? 102)%N then Some (n - 87)%N
  else if (65 <=? n)%N && (n <=? 70)%N then Some (n - 55)%N
  else None.

(** The four hexadecimal digits of a [\u] escape. *)
Definition decode_uXXXX (s : string) : option (N * string) :=
  match s with
  | String a (String b (String c (String d r))) =>
      match hex_value a, hex_value b, hex_value c, hex_value d with
      | Some x, Some y, Some z, Some w =>
          Some (((x * 16 + y) * 16 + z) * 16 + w, r)%N
      | _, _, _, _ => None
      end
  | _ => None
  end.

(** The body of a string literal, after its opening quote: the decoded
    text and what follows the closing quote. *)
Fixpoint scanstring (fuel : nat) (s : string) : option (string * string) :=
  match fuel with
  | O => None
  | S fuel' =>
      match s with
      | EmptyString => None
      | String "034" r => Some (EmptyString, r)
      | String "\" (String "u" r) =>
          match decode_uXXXX r with
          | None => None
          | Some (uni, r1) =>
              let plain :=
                match scanstring fuel' r1 with
                | Some (t, r') => Some (append (PyStr.utf8 uni) t, r')
                | None => None
                end in
              if (55296 <=? uni)%N && (uni <=? 56319)%N then
                match r1 with
                | String "\" (String "u" r2) =>
                    match decode_uXXXX r2 with
                    | None => None
                    | Some (uni2, r3) =>
                        if (56320 <=? uni2)%N && (uni2 <=? 57343)%N then
                          let cp := (65536 + ((uni - 55296) * 1024 + (uni2 - 56320)))%N in
                          match scanstring fuel' r3 with
                          | Some (t, r') => Some (append (PyStr.utf8 cp) t, r')
                          | None => None
                          end
                        else plain
                    end
                | _ => plain
                end
              else plain
          end
      | String "\" (String esc r) =>
          let char :=
            if Ascii.eqb esc "034" then Some "034"
            else if Ascii.eqb esc "\" then Some "\"
            else if Ascii.eqb esc "/" then Some "/"
            else if Ascii.eqb esc "b" then Some "008"
            else if Ascii.eqb esc "f" then Some "012"
            else if Ascii.eqb esc "n" then Some "010"
            else if Ascii.eqb esc "r" then Some "013"
            else if Ascii.eqb esc "t" then Some "009"
            else None in
          match char with
          | None => None
          | Some c =>
              match scanstring fuel' r with
              | Some (t, r') => Some (String c t, r')
              | None => None
              end
          end
      | String "\" EmptyString => None
      | String c r =>
          if Nat.ltb (nat_of_ascii c) 32 then None
          else match scanstring fuel' r with
               | Some (t, r') => Some (String c t, r')
               | None => None
               end
      end
  end.

(** A number at the head of [s]: the integer part, then an optional
    fraction and an optional exponent, each taken only when complete. *)
Definition match_number (s : string) : option (JSON * string) :=
  let (sign, r0) :=
    match s with
    | String "-" t => ("-"%string, t)
    | _ => (EmptyString, s)
    end in
  let integer :=
    match r0 with
    | String "0" t => Some ("0"%string, t)
    | String c _ =>
        if is_digit c then Some (span_digits r0) else None
    | EmptyString => None
    end in
  match integer with
  | None => None
  | Some (ds, r1) =>
      let (frac, r2) :=
        match r1 with
        | String "." t =>
            match span_digits t with
            | (EmptyString, _) => (EmptyString, r1)
            | (fs, r) => (String "." fs, r)
            end
        | _ => (EmptyString, r1)
        end in
      let (exp, r3) :=
        match r2 with
        | String e t =>
            if (Ascii.eqb e "e" || Ascii.eqb e "E")%bool then
              let (sg, t') :=
                match t with
                | String "-" u => ("-"%string, u)
                | String "+" u => ("+"%string, u)
                | _ => (EmptyString, t)
                end in
              match span_digits t' with
              | (EmptyString, _) => (EmptyString, r2)
              | (es, r) => (String e (append sg es), r)
              end
            else (EmptyString, r2)
        | EmptyString => (EmptyString, r2)
        end in
      match frac, exp with
      | EmptyString, EmptyString =>
          let n := Z_of_digits ds 0 in
          Some (JInt (if String.eqb sign "-" then (- n)%Z else n), r3)
      | _, _ => Some (JFloat (append sign (append ds (append frac exp))), r3)
      end
  end.

(** [scan_once]: one value at the head of [s]; [members] continues an
    object at a key's opening quote and [elements] an array at a value. *)
Fixpoint scan_once (fuel : nat) (s : string) : option (JSON * string) :=
  match fuel with
  | O => None
  | S fuel' =>
      match s with
      | String "034" r =>
          match scanstring (String.length r + 1) r with
          | Some (t, r') => Some (JString t, r')
          | None => None
          end
      | String "{" r =>
          match skip_ws r with
          | String "}" r' => Some (JObject [], r')
          | String "034" r' => members fuel' r' []
          | _ => None
          end
      | String "[" r =>
          match skip_ws r with
          | String "]" r' => Some (JArray [], r')
          | r' => elements fuel' r' []
          end
      | String "n" (String "u" (String "l" (String "l" r))) => Some (JNull, r)
      | String "t" (String "r" (String "u" (String "e" r))) => Some (JBool true, r)
      | String "f" (String "a" (String "l" (String "s" (String "e" r)))) =>
          Some (JBool false, r)
      | _ =>
          match match_number s with
          | Some res => Some res
          | None =>
              if prefix "NaN" s then Some (JFloat "NaN", substring 3 (String.length s) s)
              else if prefix "Infinity" s then
                Some (JFloat "Infinity", substring 8 (String.length s) s)
              else if prefix "-Infinity" s then
                Some (JFloat "-Infinity", substring 9 (String.length s) s)
              else None
          end
      end
  end

with members (fuel : nat) (s : string) (pairs : dict) : option (JSON * string) :=
  match fuel with
  | O => None
  | S fuel' =>
      match scanstring (String.length s + 1) s with
      | None => None
      | Some (key, r1) =>
          match skip_ws r1 with
          | String ":" r2 =>
              match scan_once fuel' (skip_ws r2) with
              | None => None
              | Some (value, r3) =>
                  let pairs' := Dict.set pairs key value in
                  match skip_ws r3 with
                  | String "}" r4 => Some (JObject pairs', r4)
                  | String "," r4 =>
                      match skip_ws r4 with
                      | String "034" r5 => members fuel' r5 pairs'
                      | _ => None
                      end
                  | _ => None
                  end
              end
          | _ => None
          end
      end
  end

with elements (fuel : nat) (s : string) (values : list JSON) : option (JSON * string) :=
  match fuel with
  | O => None
  | S fuel' =>
      match scan_once fuel' s with
      | None => None
      | Some (value, r1) =>
          let values' := values ++ [value] in
          match skip_ws r1 with
          | String "]" r2 => Some (JArray values', r2)
          | String "," r2 => elements fuel' (skip_ws r2) values'
          | _ => None
          end
      end
  end.

(** [json.loads(s)]: one value, with white space allowed around it and
    nothing else; [None] when the library raises. *)
Definition loads (s : string) : option JSON :=
  match scan_once (String.length s + 1) (skip_ws s) with
  | Some (v, r) =>
      match skip_ws r with
      | EmptyString => Some v
      | _ => None
      end
  | None => None
  end.

(** ** Encoding *)

Definition hex_digit (n : N) : ascii :=
  if (n <? 10)%N then ascii_of_N (48 + n) else ascii_of_N (87 + n).

(** [\uXXXX] *)
Definition escape_u (n : N) : string :=
  String "\" (String "u"
    (String (hex_digit (n / 4096)) (String (hex_digit ((n / 256) mod 16))
      (String (hex_digit ((n / 16) mod 16)) (String (hex_digit (n mod 16)) EmptyString))))).

Definition escape_code_point (n : N) : string :=
  if (n <? 65536)%N then escape_u n
  else
    let m := (n - 65536)%N in
    append (escape_u (55296 + (m / 1024) mod 1024)) (escape_u (56320 + m mod 1024)).

Definition continuation (c : ascii) : N := (N_of_ascii c mod 64)%N.

(** The text of a string with everything outside [' ' .. '~'], the quote
    and the backslash escaped. *)
Fixpoint escape_ascii (fuel : nat) (s : string) : string :=
  match fuel with
  | O => EmptyString
  | S fuel' =>
      match s with
      | EmptyString => EmptyString
      | String c r =>
          let n := N_of_ascii c in
          if Ascii.eqb c "034" then String "\" (String "034" (escape_ascii fuel' r))
          else if Ascii.eqb c "\" then String "\" (String "\" (escape_ascii fuel' r))
          else if Ascii.eqb c "008" then String "\" (String "b" (escape_ascii fuel' r))
          else if Ascii.eqb c "012" then String "\" (String "f" (escape_ascii fuel' r))
          else if Ascii.eqb c "010" then String "\" (String "n" (escape_ascii fuel' r))
          else if Ascii.eqb c "013" then String "\" (String "r" (escape_ascii fuel' r))
          else if Ascii.eqb c "009" then String "\" (String "t" (escape_ascii fuel' r))
          else if (32 <=? n)%N && (n <=? 126)%N then String c (escape_ascii fuel' r)
          else if (n <? 192)%N then append (escape_u n) (escape_ascii fuel' r)
          else if (n <? 224)%N then
            match r with
            | String c1 r' =>
                append (escape_code_point ((n mod 32) * 64 + continuation c1))
                       (escape_ascii fuel' r')
            | _ => escape_u n
            end
          else if (n <? 240)%N then
            match r with
            | String c1 (String c2 r') =>
                append (escape_code_point
                          (((n mod 16) * 64 + continuation c1) * 64 + continuation c2))
                       (escape_ascii fuel' r')
            | _ => escape_u n
            end
          else
            match r with
            | String c1 (String c2 (String c3 r')) =>
                append (escape_code_point
                          ((((n mod 8) * 64 + continuation c1) * 64 + continuation c2) * 64
                           + continuation c3))
                       (escape_ascii fuel' r')
            | _ => escape_u n
            end
      end
  end.

Definition encode_string (s : string) : string :=
  String "034" (append (escape_ascii (String.length s) s) (String "034" EmptyString)).

(** [json.dumps(v)] with the library's defaults: [", "] between items,
    [": "] after a key, non-ASCII text escaped.  A float is written as the
    literal it was read from. *)
Fixpoint dumps (v : JSON) : string :=
  match v with
  | JNull => "null"
  | JBool true => "true"
  | JBool false => "false"
  | JInt z => PyStr.of_Z z
  | JFloat lit => lit
  | JString s => encode_string s
  | JArray items =>
      let fix go (first : bool) (l : list JSON) : string :=
        match l with
        | [] => EmptyString
        | x :: rest =>
            append (if first then EmptyString else ", "%string)
                   (append (dumps x) (go false rest))
        end in
      append "[" (append (go true items) "]")
  | JObject members =>
      let fix go (first : bool) (l : dict) : string :=
        match l with
        | [] => EmptyString
        | (k, x) :: rest =>
            append (if first then EmptyString else ", "%string)
                   (append (encode_string k)
                      (append ": " (append (dumps x) (go false rest))))
        end in
      append "{" (append (go true members) "}")
  end.

End Json.

(* ------------------------------------------------------------------------- *)
(** * Effects: raising and printing *)
(* ------------------------------------------------------------------------- *)

Definition bind {A B : Type} (c : Result A) (k : A -> Result B) : Result B :=
  match c with
  | Ok a => k a
  | Raise e => Raise e
  end.

Notation "x <- c ;; k" := (bind c (fun x => k))
  (at level 61, c at next level, right associativity).
Notation "' pat <- c ;; k" := (bind c (fun x => match x with pat => k end))
  (at level 61, pat pattern, c at next level, right associativity).

(** What a function printed, one entry per call of [print]. *)
Definition Output := list string.

(* ------------------------------------------------------------------------- *)
(** * The pipeline *)
(* ------------------------------------------------------------------------- *)

(** An item of the stream that [team.run_stream] yields.  The loop of
    [process_single_item] looks at an item only when it has a [content]
    attribute holding a [str]; every other item (an event with structured
    content, the closing summary of the run) is an [Event]. *)
Inductive Message : Type :=
| TextMessage (source content : string)
| Event.

(** One run of the stream: the items it yields, and the exception that
    ends it when a stage fails. *)
Record Stream : Type := {
  yielded : list Message;
  raised : option Exn
}.

(** An entry of [items] in [main]: [{"id": .., "type": .., "text": ..}]. *)
Record Item : Type := {
  id : string;
  type : string;
  text : string
}.

(** An entry of [all_tickets] in [main]. *)
Record Ticket : Type := {
  ticket_id : string;
  title : JSON;
  category : JSON;
  priority : JSON;
  details : string;
  source_id : string;
  source_type : string
}.

(** What [pd.read_csv] returns: the header and the rows, every cell as
    [str] renders it.  A row is as long as the header. *)
Record DataFrame : Type := {
  columns : list string;
  rows : list (list string)
}.

(** How a run of [main] ends: what it printed, and the tickets it saved to
    [generated_tickets.csv], if it got that far. *)
Record Outcome : Type := {
  stdout : Output;
  saved : option (list Ticket)
}.

Section Pipeline.

(** [json.loads] and [json.dumps]. *)
Variable json_loads : string -> option JSON.
Variable json_dumps : JSON -> string.

Definition nl : string := String PyStr.newline EmptyString.
Definition dq : string := String PyStr.dquote EmptyString.

Definition task_msg (row_id text : string) : string :=
  (nl ++
   "    PROCESS THIS FEEDBACK (ID: " ++ row_id ++ "): " ++ dq ++ text ++ dq ++ nl ++
   "    " ++ nl ++
   "    Pipeline:" ++ nl ++
   "    1. Classifier: Categorize." ++ nl ++
   "    2. Bug_Analyst & Feature_Extractor: Extract details." ++ nl ++
   "    3. Ticket_Creator: Draft JSON." ++ nl ++
   "    4. Quality_Critic: Review." ++ nl ++
   "    " ++ nl ++
   "    Ticket_Creator: Output final JSON before approval." ++ nl ++
   "    ")%string.

(** The text between the first opening and the last closing brace. *)
Definition snippet (content : string) : string :=
  let start := PyStr.find content "{" in
  let end_ := (PyStr.rfind content "}" + 1)%Z in
  PyStr.slice content start end_.

(** The body of the loop for one text: [Some data] when it rebinds
    [final_json] to [data], [None] when it leaves it alone.  Whatever is
    raised inside the [try] is swallowed. *)
Definition extract (content : string) : option JSON :=
  if (PyStr.contains "{" content && PyStr.contains "title" content)%bool then
    match json_loads (snippet content) with
    | Some data =>
        match Py.title_in data with
        | Ok true => Some data
        | Ok false => None
        | Raise _ => None
        end
    | None => None
    end
  else None.

(** One iteration of [async for message in result_stream]. *)
Definition absorb (final_json : JSON) (message : Message) : JSON :=
  match message with
  | TextMessage _ content =>
      match extract content with
      | Some data => data
      | None => final_json
      end
  | Event => final_json
  end.

(** [final_json] when the loop is left, by exhaustion or by exception. *)
Definition accepted (messages : list Message) : JSON :=
  fold_left absorb messages (JObject []).

Definition fallback (row_id : string) : JSON :=
  JObject [("title", JString ("Error Processing " ++ row_id)%string);
           ("category", JString "Error");
           ("priority", JString "Low");
           ("details", JObject [("error", JString "Agents did not produce valid JSON")])].

(** [process_single_item].  [run_stream] is [team.run_stream] of the team
    the function builds. *)
Definition process_single_item (run_stream : string -> Stream)
           (row_id source_type text : string) : JSON * Output :=
  let result_stream := run_stream (task_msg row_id text) in
  let final_json := accepted (yielded result_stream) in
  let printed :=
    match raised result_stream with
    | Some e => ["⚠️ Error processing " ++ row_id ++ ": " ++ exn_message e]%string
    | None => []
    end in
  if negb (Py.truthy final_json) then (fallback row_id, printed)
  else (final_json, printed).

(** The dict built for one item in the loop of [main]. *)
Definition make_ticket (item : Item) (result : JSON) : Result Ticket :=
  t <- Py.get result "title" (JString "Untitled") ;;
  c <- Py.get result "category" (JString "Uncategorized") ;;
  p <- Py.get result "priority" (JString "Low") ;;
  d <- Py.get result "details" (JObject []) ;;
  Ok {| ticket_id := ("TKT-" ++ id item)%string;
        title := t;
        category := c;
        priority := p;
        details := json_dumps d;
        source_id := id item;
        source_type := type item |}.

(** Step 3 of [main], from the item at index [i] on: the tickets in the
    order they are appended, and what is printed.  [team_run i] is the
    stream the team of the item at index [i] produces; [n] is
    [len(items)]. *)
Fixpoint run_from (team_run : nat -> string -> Stream) (i n : nat)
         (items : list Item) : Result (list Ticket * Output) :=
  match items with
  | [] => Ok ([], [])
  | item :: rest =>
      let progress :=
        ("[" ++ PyStr.of_nat (i + 1) ++ "/" ++ PyStr.of_nat n ++ "] Processing "
             ++ type item ++ " " ++ id item ++ "...")%string in
      let (result, printed) :=
        process_single_item (team_run i) (id item) (type item) (text item) in
      ticket <- make_ticket item result ;;
      ' (tickets, printed') <- run_from team_run (S i) n rest ;;
      Ok (ticket :: tickets, progress :: printed ++ printed')
  end.

Definition run_all (team_run : nat -> string -> Stream) (items : list Item)
  : Result (list Ticket * Output) :=
  run_from team_run 0 (length items) items.

(** The ticket the loop appends for [item], given the stream its team
    produces. *)
Definition ticket_of (run_stream : string -> Stream) (item : Item) : Result Ticket :=
  make_ticket item
    (fst (process_single_item run_stream (id item) (type item) (text item))).

(** ** Loading *)

(** [label in df.columns] *)
Definition has_column (df : DataFrame) (label : string) : bool :=
  existsb (String.eqb label) (columns df).

(** The position of [label] in the header. *)
Fixpoint position (label : string) (labels : list string) : nat :=
  match labels with
  | [] => 0
  | l :: rest => if String.eqb l label then 0 else S (position label rest)
  end.

(** [str(r[label])] for a row [r] of [df]. *)
Definition cell (df : DataFrame) (r : list string) (label : string) : string :=
  nth (position label (columns df)) r EmptyString.

(** [df.columns = df.columns.str.strip()] *)
Definition strip_columns (df : DataFrame) : DataFrame :=
  {| columns := map PyStr.strip (columns df); rows := rows df |}.

(** The items of one source, or nothing and a warning when a required
    column is missing. *)
Definition source_items (df : DataFrame) (id_col text_col kind warning : string)
  : list Item * Output :=
  if (has_column df id_col && has_column df text_col)%bool then
    (map (fun r => {| id := cell df r id_col; type := kind; text := cell df r text_col |})
         (rows df), [])
  else ([], [warning]).

Definition review_items (reviews : DataFrame) : list Item * Output :=
  source_items reviews "review_id" "review_text" "Review"
    "⚠️ Warning: 'app_store_reviews.csv' missing 'review_id' or 'review_text' columns.".

Definition email_items (emails : DataFrame) : list Item * Output :=
  source_items emails "email_id" "body" "Email"
    "⚠️ Warning: 'support_emails.csv' missing 'email_id' or 'body' columns.".

(** [main].  [read_reviews] and [read_emails] are what the two calls of
    [pd.read_csv] do. *)
Definition main (read_reviews read_emails : Result DataFrame)
           (team_run : nat -> string -> Stream) : Result Outcome :=
  let banner := "🚀 Starting AutoGen Feedback System..."%string in
  match (reviews <- read_reviews ;; emails <- read_emails ;;
         Ok (strip_columns reviews, strip_columns emails)) with
  | Raise e =>
      Ok {| stdout :=
              [banner;
               "❌ Error loading CSV files: " ++ exn_message e;
               "Please check that 'app_store_reviews.csv' and 'support_emails.csv' are in the 'data/' folder."]%string;
            saved := None |}
  | Ok (reviews, emails) =>
      let loaded :=
        ("✅ Loaded " ++ PyStr.of_nat (length (rows reviews)) ++ " reviews and "
           ++ PyStr.of_nat (length (rows emails)) ++ " emails.")%string in
      let (from_reviews, warned1) := review_items reviews in
      let (from_emails, warned2) := email_items emails in
      let items := from_reviews ++ from_emails in
      let count :=
        ("📋 Processing " ++ PyStr.of_nat (length items) ++ " total feedback items...")%string in
      ' (all_tickets, printed) <- run_all team_run items ;;
      Ok {| stdout :=
              [banner; loaded] ++ warned1 ++ warned2 ++ [count] ++ printed ++
              [(nl ++ "🎉 Success! Processed " ++ PyStr.of_nat (length all_tickets)
                   ++ " tickets.")%string;
               "📂 Output saved to: outputs/generated_tickets.csv"%string];
            saved := Some all_tickets |}
  end.

End Pipeline.

(* ------------------------------------------------------------------------- *)
(** * The deliberation scheduler *)
(* ------------------------------------------------------------------------- *)

(** [process_single_item] hands the deliberation to a round-robin group
    chat of its chat library.  The participants, the termination token and
    the turn cap are the source's; how a run proceeds is the library's and
    is taken from the specification of the scheduler. *)
Module Scheduler.

(** An entry of the conversation context. *)
Record Entry : Type := {
  stage_name : string;
  content : string
}.

Definition Context := list Entry.

(** A stage processor: given the context so far it produces a text, or
    fails. *)
Record Agent : Type := {
  name : string;
  produce : Context -> Result string
}.

(** [get_agent_team]: the five agents, in the order of the returned list.
    An agent differs from the others by its name and its instructions;
    [model_client] is what the generation backend answers to the agent of
    a given name, so it stands for the instructions as well. *)
Definition get_agent_team (model_client : string -> Context -> Result string)
  : list Agent :=
  map (fun n => {| name := n; produce := model_client n |})
      ["Feedback_Classifier"; "Bug_Analyst"; "Feature_Extractor";
       "Ticket_Creator"; "Quality_Critic"].

(** [RoundRobinGroupChat(participants, termination_condition, max_turns)];
    the termination condition is the text of its [TextMentionTermination]. *)
Record RoundRobinGroupChat : Type := {
  participants : list Agent;
  termination_condition : string;
  max_turns : nat
}.

(** The team [process_single_item] builds. *)
Definition team (model_client : string -> Context -> Result string)
  : RoundRobinGroupChat :=
  {| participants := get_agent_team model_client;
     termination_condition := "APPROVED";
     max_turns := 6 |}.

Inductive Status : Type := Running | Approved | Exhausted.

Record State : Type := {
  status : Status;
  turns_taken : nat;
  context : Context;
  failure : option Exn
}.

(** Modelled from the spec: the initial state of the scheduler, which is
    part of the chat library and not of the source.  "Initial state:
    Running, turn counter 0, empty context." *)
Definition initial : State :=
  {| status := Running; turns_taken := 0; context := []; failure := None |}.

(** Modelled from the spec: the stage whose turn it is, "the next
    StageProcessor in fixed cyclical order". *)
Definition next_stage (chat : RoundRobinGroupChat) (st : State) : option Agent :=
  nth_error (participants chat) (turns_taken st mod length (participants chat)).

(** Modelled from the spec: one transition of the scheduler's state
    machine, which is part of the chat library and not of the source.  A
    running scheduler whose turn counter has reached the cap becomes
    exhausted; otherwise the next stage is invoked with the context so
    far, its output is appended and the counter incremented, and the
    scheduler becomes approved when the output contains the termination
    token.  A failing stage aborts the run, "treated as Exhausted with no
    further turns".  The terminal states have no transition. *)
Definition turn (chat : RoundRobinGroupChat) (st : State) : State :=
  match status st with
  | Running =>
      if Nat.leb (max_turns chat) (turns_taken st) then
        {| status := Exhausted; turns_taken := turns_taken st;
           context := context st; failure := None |}
      else
        match next_stage chat st with
        | None =>
            {| status := Exhausted; turns_taken := turns_taken st;
               context := context st; failure := None |}
        | Some agent =>
            match produce agent (context st) with
            | Raise e =>
                {| status := Exhausted; turns_taken := turns_taken st;
                   context := context st; failure := Some e |}
            | Ok output =>
                {| status :=
                     if PyStr.contains (termination_condition chat) output
                     then Approved else Running;
                   turns_taken := S (turns_taken st);
                   context :=
                     context st ++ [{| stage_name := name agent; content := output |}];
                   failure := None |}
            end
        end
  | Approved | Exhausted => st
  end.

(** Whether an entry contains the termination token. *)
Definition mentions (chat : RoundRobinGroupChat) (e : Entry) : bool :=
  PyStr.contains (termination_condition chat) (content e).

(** What holds of every state of a run: the context has one entry per
    turn taken, the turns stay within the cap, and the token occurs in
    the last entry of an approved run and nowhere else. *)
Definition invariant (chat : RoundRobinGroupChat) (st : State) : Prop :=
  length (context st) = turns_taken st /\
  turns_taken st <= max_turns chat /\
  match status st with
  | Running =>
      failure st = None /\ Forall (fun e => mentions chat e = false) (context st)
  | Approved =>
      failure st = None /\
      exists before last,
        context st = before ++ [last] /\
        Forall (fun e => mentions chat e = false) before /\
        mentions chat last = true
  | Exhausted => Forall (fun e => mentions chat e = false) (context st)
  end.

(** The state after [k] transitions. *)
Definition after (chat : RoundRobinGroupChat) (k : nat) : State :=
  Nat.iter k (turn chat) initial.

(** Modelled from the spec: a whole run, which "drives one scheduler run
    to a terminal state"; one transition more than the cap suffices. *)
Definition run (chat : RoundRobinGroupChat) : State :=
  after chat (S (max_turns chat)).

(** Modelled from the spec: the stream of a run as the loop of
    [process_single_item] sees it; the chat library that yields it is not
    part of the source.  The output of every turn is a message of the
    stream ("every message produced during the item's deliberation"), and
    a run that a stage aborts ends with the exception, "reported to the
    caller".  The specification is silent on the two ends of the stream:
    the library yields the task first, as a text message of the user, and
    closes a run that ends normally by its summary, which has no text
    content. *)
Definition stream_of (task : string) (st : State) : Stream :=
  {| yielded :=
       TextMessage "user" task
       :: map (fun e => TextMessage (stage_name e) (content e)) (context st)
       ++ match failure st with
          | None => [Event]
          | Some _ => []
          end;
     raised := failure st |}.

(** [team.run_stream(task=task)].  The backend sees the task, so its
    answers depend on it. *)
Definition run_stream (backend : string -> string -> Context -> Result string)
           (task : string) : Stream :=
  stream_of task (run (team (backend task))).

End Scheduler.


(* ------------------------------------------------------------------------- *)
(** * The notions of the specification *)
(* ------------------------------------------------------------------------- *)

(** The specification's own words for what the extractor looks for and
    what a run retains, to compare with what the source computes. *)
Module Spec.

Local Open Scope string_scope.

(** "The substring from the first [{] to the last [}]": [content] has an
    opening brace that no other precedes and, further on, a closing brace
    that no other follows; the substring runs from the one to the other. *)
Inductive brace_span (content : string) : string -> Prop :=
| BraceSpan (pre mid post : string) :
    content = pre ++ String "{" (mid ++ String "}" post) ->
    PyStr.contains "{" pre = false ->
    PyStr.contains "}" post = false ->
    brace_span content (String "{" (mid ++ "}")).

(** "A JSON object containing a [title] field". *)
Definition has_title_field (data : JSON) : Prop :=
  exists members, data = JObject members /\ Dict.mem members "title" = true.

(** A candidate of a message: its brace span "parses as valid JSON
    containing a [title] field". *)
Definition candidate (json_loads : string -> option JSON)
           (content : string) (data : JSON) : Prop :=
  exists sub,
    brace_span content sub /\ json_loads sub = Some data /\ has_title_field data.

(** What is used of [json.loads]: it rejects the empty text, and a text
    that opens with a brace can only decode to an object. *)
Definition decoder (json_loads : string -> option JSON) : Prop :=
  json_loads "" = None /\
  forall t data, json_loads (String "{" t) = Some data ->
                 exists members, data = JObject members.

(** The candidate a stream item offers to the loop of the source. *)
Definition offers (json_loads : string -> option JSON) (m : Message) : option JSON :=
  match m with
  | TextMessage _ content => extract json_loads content
  | Event => None
  end.

(** "The most recent valid candidate" among the items of a run. *)
Fixpoint last_candidate (json_loads : string -> option JSON)
         (messages : list Message) : option JSON :=
  match messages with
  | [] => None
  | m :: rest =>
      match last_candidate json_loads rest with
      | Some data => Some data
      | None => offers json_loads m
      end
  end.

(** The enumerations of the data model.  The instructions of the
    classifier spell the second category with a space; both spellings
    count. *)
Definition categories : list string :=
  ["Bug"; "FeatureRequest"; "Feature Request"; "Praise"; "Complaint"; "Spam"; "Error"].

Definition priorities : list string := ["Critical"; "High"; "Medium"; "Low"].

Definition one_of (names : list string) (v : JSON) : bool :=
  match v with
  | JString s => existsb (String.eqb s) names
  | _ => false
  end.

(** The field [key] of an accepted object, or [default]. *)
Definition field_or (data : JSON) (key default : string) : JSON :=
  match data with
  | JObject members =>
      match Dict.get members key with
      | Some v => v
      | None => JString default
      end
  | _ => JString default
  end.

End Spec.

(* ------------------------------------------------------------------------- *)
(** * Sample runs *)
(* ------------------------------------------------------------------------- *)

Module Samples.

Local Open Scope string_scope.

Definition quoted (s : string) : string := dq ++ s ++ dq.

(** [{"title":"x"}] *)
Definition bare_title : string := "{" ++ quoted "title" ++ ":" ++ quoted "x" ++ "}".

(** [{"\u0074itle":"x"}]: the key is [title], its first letter written
    as an escape. *)
Definition escaped_title : string :=
  "{" ++ quoted "\u0074itle" ++ ":" ++ quoted "x" ++ "}".

(** The outputs of the scenario of the specification. *)
Definition classifier_output : string :=
  "{" ++ quoted "category" ++ ":" ++ quoted "Bug" ++ ","
      ++ quoted "priority" ++ ":" ++ quoted "High" ++ "}".

Definition analyst_output : string :=
  "{" ++ quoted "steps_to_reproduce" ++ ":["
      ++ quoted "open app" ++ "," ++ quoted "tap login" ++ "]}".

Definition extractor_output : string :=
  "{" ++ quoted "status" ++ ":" ++ quoted "skipped" ++ "}".

Definition creator_output : string :=
  "{" ++ quoted "title" ++ ":" ++ quoted "Login crash" ++ ","
      ++ quoted "category" ++ ":" ++ quoted "Bug" ++ ","
      ++ quoted "priority" ++ ":" ++ quoted "High" ++ ","
      ++ quoted "details" ++ ":{" ++ quoted "steps" ++ ":["
      ++ quoted "open app" ++ "," ++ quoted "tap login" ++ "]}}".

Definition login_ticket : JSON :=
  JObject [("title", JString "Login crash");
           ("category", JString "Bug");
           ("priority", JString "High");
           ("details",
            JObject [("steps", JArray [JString "open app"; JString "tap login"])])].

Definition answer (name : string) (critic : Result string) : Result string :=
  if String.eqb name "Feedback_Classifier" then Ok classifier_output
  else if String.eqb name "Bug_Analyst" then Ok analyst_output
  else if String.eqb name "Feature_Extractor" then Ok extractor_output
  else if String.eqb name "Ticket_Creator" then Ok creator_output
  else critic.

(** The backend of the scenario: the critic approves. *)
Definition approving (task name : string) (ctx : Scheduler.Context) : Result string :=
  answer name (Ok "APPROVED").

(** The same stages, with a backend fault at the critic's turn. *)
Definition failing_critic (task name : string) (ctx : Scheduler.Context)
  : Result string :=
  answer name (Raise (GenerationError "timeout")).

(** A backend whose stages never emit a ticket. *)
Definition idle (task name : string) (ctx : Scheduler.Context) : Result string :=
  Ok "nothing to report".


Definition R1 : Item :=
  {| id := "R1"; type := "Review"; text := "App crashes on login" |}.

Definition E1 : Item :=
  {| id := "E1"; type := "Email"; text := "Please add dark mode" |}.


(** A stream in which a stage emits [{"title":"x"}] and nothing else. *)
Definition bare_stream (task : string) : Stream :=
  {| yielded := [TextMessage "user" task; TextMessage "Ticket_Creator" bare_title; Event];
     raised := None |}.

(** A stream with a draft at one turn, a complete ticket two turns
    later, and a review that quotes no valid JSON after it. *)
Definition revised_stream (task : string) : Stream :=
  {| yielded := [TextMessage "user" task;
                 TextMessage "Ticket_Creator" bare_title;
                 TextMessage "Quality_Critic" "The priority is missing.";
                 TextMessage "Ticket_Creator" creator_output;
                 TextMessage "Quality_Critic" "Fine, but {title} should be shorter";
                 Event];
     raised := None |}.

(** The batch of two items in which the team of the first item meets a
    backend fault, and the batch in which it does not. *)
Definition faulty_batch (i : nat) : string -> Stream :=
  if Nat.eqb i 0 then Scheduler.run_stream failing_critic
  else Scheduler.run_stream approving.

Definition healthy_batch (i : nat) : string -> Stream :=
  Scheduler.run_stream approving.

Definition reviews : DataFrame :=
  {| columns := [" review_id"; "review_text "; "rating"];
     rows := [["R1"; "App crashes on login"; "1"]] |}.

(** An email export without its [body] column. *)
Definition emails_without_body : DataFrame :=
  {| columns := ["email_id"; "subject"];
     rows := [["E1"; "Dark mode"]] |}.

Definition emails : DataFrame :=
  {| columns := ["email_id"; "subject"; "body"];
     rows := [["E1"; "Dark mode"; "Please add dark mode"]] |}.

End Samples.

(* ------------------------------------------------------------------------- *)
(** * The parts of the task message, and further notions *)
(* ------------------------------------------------------------------------- *)

(** The three fixed parts of the f-string of [task_msg]: what precedes the
    row id, what stands between the id and the text, and what follows the
    text. *)
Module Layout.

Local Open Scope string_scope.

Definition head : string := nl ++ "    PROCESS THIS FEEDBACK (ID: ".

Definition middle : string := "): " ++ dq.

Definition tail : string :=
  dq ++ nl ++
  "    " ++ nl ++
  "    Pipeline:" ++ nl ++
  "    1. Classifier: Categorize." ++ nl ++
  "    2. Bug_Analyst & Feature_Extractor: Extract details." ++ nl ++
  "    3. Ticket_Creator: Draft JSON." ++ nl ++
  "    4. Quality_Critic: Review." ++ nl ++
  "    " ++ nl ++
  "    Ticket_Creator: Output final JSON before approval." ++ nl ++
  "    ".

(** [n] spaces. *)
Fixpoint spaces (n : nat) : string :=
  match n with
  | O => EmptyString
  | S n' => String " " (spaces n')
  end.

(** A printable ASCII character other than the space. *)
Definition plain (c : ascii) : bool :=
  (Nat.leb 33 (nat_of_ascii c) && Nat.leb (nat_of_ascii c) 126)%bool.

(** Whether a string begins with a plain character. *)
Definition first_plain (s : string) : bool :=
  match s with
  | String a _ => plain a
  | EmptyString => false
  end.

(** A label that begins and ends with a plain character. *)
Definition trimmed (label : string) : bool :=
  (first_plain label && first_plain (PyStr.rev label))%bool.

(** The tokens [PyStr.lstrip] drops from a string, and those
    [PyStr.rstrip] drops from the reversed string. *)
Definition leading : list string := map PyStr.utf8 PyStr.whitespace.

Definition trailing : list string :=
  map (fun cp => PyStr.rev (PyStr.utf8 cp)) PyStr.whitespace.

(** Whether a stream item has a text content. *)
Definition is_text (m : Message) : bool :=
  match m with
  | TextMessage _ _ => true
  | Event => false
  end.


(** The ticket identifier [main] derives from an item. *)
Definition ticket_id_of (item : Item) : string := "TKT-" ++ id item.

End Layout.

(** Further sample data. *)
Module MoreSamples.

Local Open Scope string_scope.

(** A stream in which the only stage to speak approves. *)
Definition approving_stream (task : string) : Stream :=
  {| yielded := [TextMessage "user" task;
                 TextMessage "Quality_Critic" "APPROVED";
                 Event];
     raised := None |}.

(** [{"\u0074itle":"y"}]: a ticket whose key is [title], its first
    letter written as an escape. *)
Definition escaped_y : string :=
  "{" ++ Samples.quoted "\u0074itle" ++ ":" ++ Samples.quoted "y" ++ "}".

(** A stream with the ticket [{"title":"x"}] at one turn and, two turns
    later, a ticket that spells its key with an escape. *)
Definition escaped_stream (task : string) : Stream :=
  {| yielded := [TextMessage "user" task;
                 TextMessage "Ticket_Creator" Samples.bare_title;
                 TextMessage "Quality_Critic" "Rename it.";
                 TextMessage "Ticket_Creator" escaped_y;
                 Event];
     raised := None |}.

End MoreSamples.
(* ------------------------------------------------------------------------- *)
(** * Facts about the string operations *)
(* ------------------------------------------------------------------------- *)

Module PyStrFacts.

Import PyStr.

Local Open Scope string_scope.

Lemma prefix_char_cons (c a : ascii) (t : string) :
  prefix (char c) (String a t) = Ascii.eqb c a.
Proof.
  unfold char; simpl.
  destruct (ascii_dec c a) as [->|Hne].
  - rewrite Ascii.eqb_refl. now destruct t.
  - symmetry. now apply Ascii.eqb_neq.
Qed.

Lemma prefix_char_empty (c : ascii) : prefix (char c) EmptyString = false.
Proof. reflexivity. Qed.

Lemma length_append (a b : string) :
  String.length (a ++ b) = String.length a + String.length b.
Proof. induction a as [|x a IH]; simpl; [reflexivity | now rewrite IH]. Qed.

Lemma append_assoc (a b c : string) : (a ++ b) ++ c = a ++ (b ++ c).
Proof. induction a as [|x a IH]; simpl; [reflexivity | now rewrite IH]. Qed.

Lemma append_empty_r (a : string) : a ++ "" = a.
Proof. induction a as [|x a IH]; simpl; [reflexivity | now rewrite IH]. Qed.

(** ** Membership of a character *)

Lemma contains_char_cons (c a : ascii) (t : string) :
  contains (char c) (String a t) = (Ascii.eqb c a || contains (char c) t)%bool.
Proof.
  change (contains (char c) (String a t))
    with (if prefix (char c) (String a t) then true else contains (char c) t).
  rewrite prefix_char_cons. now destruct (Ascii.eqb c a).
Qed.

Lemma contains_char_app (c : ascii) (a b : string) :
  contains (char c) (a ++ b) = (contains (char c) a || contains (char c) b)%bool.
Proof.
  induction a as [|x a IH].
  - reflexivity.
  - simpl append. rewrite !contains_char_cons, IH. now rewrite orb_assoc.
Qed.

(** A string that contains [c] splits at the first occurrence of [c]. *)
Lemma split_first (c : ascii) (s : string) :
  contains (char c) s = true ->
  exists pre rest, s = pre ++ String c rest /\ contains (char c) pre = false.
Proof.
  induction s as [|a t IH]; [discriminate|].
  rewrite contains_char_cons. destruct (Ascii.eqb c a) eqn:E.
  - apply Ascii.eqb_eq in E; subst a. intros _. now exists "", t.
  - simpl. intros H. destruct (IH H) as (pre & rest & -> & Hpre).
    exists (String a pre), rest. split; [reflexivity|].
    rewrite contains_char_cons, E. exact Hpre.
Qed.

(** A string that contains [c] splits at the last occurrence of [c]. *)
Lemma split_last (c : ascii) (s : string) :
  contains (char c) s = true ->
  exists init post, s = init ++ String c post /\ contains (char c) post = false.
Proof.
  induction s as [|a t IH]; [discriminate|].
  rewrite contains_char_cons.
  destruct (contains (char c) t) eqn:Ht.
  - intros _. destruct (IH eq_refl) as (init & post & -> & Hpost).
    now exists (String a init), post.
  - rewrite orb_false_r. intros E. apply Ascii.eqb_eq in E; subst a.
    now exists "", t.
Qed.

(** ** [find] and [rfind] of a character *)

Lemma find_from_first (c : ascii) (pre rest : string) (i : Z) :
  contains (char c) pre = false ->
  find_from (char c) (pre ++ String c rest) i = (i + Z.of_nat (String.length pre))%Z.
Proof.
  revert i. induction pre as [|a pre IH]; intros i Hpre.
  - simpl append.
    change (find_from (char c) (String c rest) i)
      with (if prefix (char c) (String c rest) then i
            else find_from (char c) rest (i + 1)).
    rewrite prefix_char_cons, Ascii.eqb_refl. simpl. lia.
  - rewrite contains_char_cons in Hpre. apply orb_false_elim in Hpre as [E Hpre].
    simpl append.
    change (find_from (char c) (String a (pre ++ String c rest)) i)
      with (if prefix (char c) (String a (pre ++ String c rest)) then i
            else find_from (char c) (pre ++ String c rest) (i + 1)).
    rewrite prefix_char_cons, E, (IH _ Hpre). simpl String.length. lia.
Qed.

Lemma rfind_from_cons (c a : ascii) (t : string) (i best : Z) :
  rfind_from (char c) (String a t) i best =
  rfind_from (char c) t (i + 1) (if Ascii.eqb c a then i else best).
Proof.
  change (rfind_from (char c) (String a t) i best)
    with (rfind_from (char c) t (i + 1)
            (if prefix (char c) (String a t) then i else best)).
  now rewrite prefix_char_cons.
Qed.

Lemma rfind_from_absent (c : ascii) (s : string) (i best : Z) :
  contains (char c) s = false -> rfind_from (char c) s i best = best.
Proof.
  revert i best. induction s as [|a t IH]; intros i best H.
  - reflexivity.
  - rewrite contains_char_cons in H. apply orb_false_elim in H as [E H].
    rewrite rfind_from_cons, E. now apply IH.
Qed.

Lemma rfind_from_app (c : ascii) (a b : string) (i best : Z) :
  rfind_from (char c) (a ++ b) i best =
  rfind_from (char c) b (i + Z.of_nat (String.length a)) (rfind_from (char c) a i best).
Proof.
  revert i best. induction a as [|x a IH]; intros i best.
  - simpl. f_equal. lia.
  - simpl append. rewrite !rfind_from_cons, IH. simpl String.length. f_equal. lia.
Qed.

Lemma rfind_from_bound (c : ascii) (s : string) (i best : Z) :
  (best < i)%Z ->
  (best <= rfind_from (char c) s i best < i + Z.of_nat (String.length s))%Z
  \/ (rfind_from (char c) s i best = best /\ s = EmptyString).
Proof.
  revert i best. induction s as [|a t IH]; intros i best Hlt.
  - right. split; reflexivity.
  - left. rewrite rfind_from_cons. simpl String.length.
    destruct (Ascii.eqb c a).
    + destruct (IH (i + 1)%Z i) as [H|[H _]]; lia.
    + destruct (IH (i + 1)%Z best) as [H|[H _]]; lia.
Qed.

Lemma rfind_last (c : ascii) (init post : string) :
  contains (char c) post = false ->
  rfind (init ++ String c post) (char c) = Z.of_nat (String.length init).
Proof.
  intros H. unfold rfind.
  rewrite rfind_from_app, rfind_from_cons, Ascii.eqb_refl.
  now rewrite rfind_from_absent.
Qed.

(** When [c] does not occur from position [n] on, its last occurrence, if
    any, lies before [n]. *)
Lemma rfind_before (c : ascii) (pre rest : string) :
  contains (char c) rest = false ->
  (-1 <= rfind (pre ++ rest) (char c) < Z.of_nat (String.length pre))%Z
  \/ (rfind (pre ++ rest) (char c) = (-1)%Z).
Proof.
  intros H. unfold rfind. rewrite rfind_from_app, rfind_from_absent by exact H.
  assert (Hlt : (-1 < 0)%Z) by lia.
  destruct (rfind_from_bound c pre Hlt) as [Hb|[Hb _]]; [left; lia | now right].
Qed.

(** ** Slices *)

Lemma substring_zero_length (n : nat) (s : string) : substring n 0 s = "".
Proof.
  revert n. induction s as [|a t IH]; intros [|n]; simpl; try reflexivity.
  apply IH.
Qed.

Lemma substring_prefix (a b : string) :
  substring 0 (String.length a) (a ++ b) = a.
Proof.
  induction a as [|x a IH]; simpl.
  - now destruct b.
  - now rewrite IH.
Qed.

Lemma substring_skip (pre s : string) (m : nat) :
  substring (String.length pre) m (pre ++ s) = substring 0 m s.
Proof. induction pre as [|x pre IH]; simpl; [reflexivity | exact IH]. Qed.

(** The slice that starts after [pre] and spans [mid] is [mid]. *)
Lemma slice_middle (pre mid post : string) :
  slice (pre ++ mid ++ post)
        (Z.of_nat (String.length pre))
        (Z.of_nat (String.length pre + String.length mid)) = mid.
Proof.
  unfold slice, clamp. rewrite !length_append.
  destruct (Z.ltb_spec (Z.of_nat (String.length pre)) 0); [lia|].
  destruct (Z.ltb_spec (Z.of_nat (String.length pre + String.length mid)) 0); [lia|].
  rewrite !Z.min_l by lia.
  replace (Z.to_nat (Z.of_nat (String.length pre + String.length mid)
                     - Z.of_nat (String.length pre))) with (String.length mid) by lia.
  rewrite Nat2Z.id, substring_skip. apply substring_prefix.
Qed.

(** A slice whose end does not lie after its start is empty. *)
Lemma slice_empty (s : string) (start stop : Z) :
  (0 <= stop <= start)%Z -> slice s start stop = "".
Proof.
  intros H. unfold slice, clamp.
  destruct (Z.ltb_spec start 0); [lia|].
  destruct (Z.ltb_spec stop 0); [lia|].
  replace (Z.to_nat (Z.min stop _ - Z.min start _)) with 0 by lia.
  apply substring_zero_length.
Qed.

End PyStrFacts.
(* ------------------------------------------------------------------------- *)
(** * Facts about the decoder *)
(* ------------------------------------------------------------------------- *)

Module JsonFacts.

Import Json.

Ltac split_match :=
  match goal with
  | H : context [match ?x with _ => _ end] |- _ => destruct x eqn:?
  end.

(** An object under construction ends as an object. *)
Lemma members_object (fuel : nat) :
  forall s pairs v r, members fuel s pairs = Some (v, r) -> exists m, v = JObject m.
Proof.
  induction fuel as [|fuel IH]; intros s pairs v r H; [discriminate|].
  simpl in H.
  repeat (split_match; try discriminate);
    try (injection H as <- _; eexists; reflexivity);
    eapply IH; eassumption.
Qed.

Lemma loads_empty : loads "" = None.
Proof. reflexivity. Qed.

(** A text that opens with a brace decodes, if at all, to an object. *)
Lemma loads_brace (t : string) (data : JSON) :
  loads (String "{" t) = Some data -> exists m, data = JObject m.
Proof.
  unfold loads. cbn [skip_ws is_ws Ascii.eqb Bool.eqb orb].
  rewrite Nat.add_comm. cbn [Nat.add scan_once].
  intros H.
  repeat (split_match; try discriminate);
    injection H as <-;
    try (match goal with
         | E : Some _ = Some _ |- _ => injection E as <- _
         end; eexists; reflexivity);
    match goal with
    | E : members _ _ _ = Some _ |- _ => eapply members_object; exact E
    end.
Qed.

(** The decoder honours the contract the pipeline relies on. *)
Lemma loads_decoder : Spec.decoder loads.
Proof. split; [exact loads_empty | exact loads_brace]. Qed.

End JsonFacts.

(* ------------------------------------------------------------------------- *)
(** * The extractor *)
(* ------------------------------------------------------------------------- *)

Section Extractor.

Import PyStr PyStrFacts.

Local Open Scope string_scope.

Variable json_loads : string -> option JSON.

(** The source's slice is the specification's substring. *)
Lemma snippet_brace_span (content sub : string) :
  Spec.brace_span content sub -> snippet content = sub.
Proof.
  intros [pre mid post -> Hpre Hpost]. unfold snippet, find.
  change "{" with (char "{"). change "}" with (char "}").
  rewrite (find_from_first "{" pre _ 0%Z Hpre).
  replace (pre ++ String "{" (mid ++ String "}" post))
    with ((pre ++ String "{" mid) ++ String "}" post)
    by (now rewrite append_assoc).
  rewrite (rfind_last "}" (pre ++ String "{" mid) post Hpost).
  replace ((pre ++ String "{" mid) ++ String "}" post)
    with (pre ++ String "{" (mid ++ "}") ++ post)
    by (rewrite !append_assoc; simpl; now rewrite append_assoc).
  rewrite length_append. simpl String.length.
  replace (Z.of_nat (String.length pre + S (String.length mid)) + 1)%Z
    with (Z.of_nat (String.length pre + String.length (String "{" (mid ++ "}")))).
  - rewrite Z.add_0_l. apply slice_middle.
  - simpl String.length. rewrite length_append. simpl String.length. lia.
Qed.

(** A text with an opening brace has a brace span, or its slice is
    empty. *)
Lemma snippet_cases (content : string) :
  contains "{" content = true ->
  Spec.brace_span content (snippet content) \/ snippet content = "".
Proof.
  intros Hopen. change "{" with (char "{") in Hopen.
  destruct (split_first "{" content Hopen) as (pre & rest & -> & Hpre).
  destruct (contains (char "}") rest) eqn:Hclose.
  - left. destruct (split_last "}" rest Hclose) as (mid & post & -> & Hpost).
    assert (Hspan : Spec.brace_span (pre ++ String "{" (mid ++ String "}" post))
                                    (String "{" (mid ++ "}")))
      by (econstructor; eauto).
    now rewrite (snippet_brace_span Hspan).
  - right. unfold snippet, find.
    change "{" with (char "{"). change "}" with (char "}").
    rewrite (find_from_first "{" pre rest 0%Z Hpre), Z.add_0_l.
    assert (Hrest : contains (char "}") (String "{" rest) = false)
      by (rewrite contains_char_cons; exact Hclose).
    apply slice_empty.
    destruct (rfind_before "}" pre (String "{" rest) Hrest) as [H|H]; lia.
Qed.

Lemma title_in_object (data : JSON) :
  Spec.has_title_field data -> Py.title_in data = Ok true.
Proof. intros (m & -> & Hm). simpl. now rewrite Hm. Qed.

(** Whatever the loop accepts is truthy, so the test after the loop tells
    an accepted value from the initial empty dict. *)
Lemma extract_truthy (content : string) (data : JSON) :
  extract json_loads content = Some data -> Py.truthy data = true.
Proof.
  unfold extract.
  destruct (contains "{" content && contains "title" content)%bool; [|discriminate].
  destruct (json_loads (snippet content)) as [d|]; [|discriminate].
  destruct (Py.title_in d) as [[|]|] eqn:Hin; try discriminate.
  intros [= <-].
  destruct d as [| | | |s|items|members]; try discriminate; simpl in *.
  - injection Hin as Hin. destruct s; [discriminate | reflexivity].
  - injection Hin as Hin. destruct items; [discriminate | reflexivity].
  - injection Hin as Hin. destruct members; [discriminate | reflexivity].
Qed.

(** The extractor accepts a candidate of the specification whenever the
    text also spells [title] out. *)
Lemma extract_complete (content : string) (data : JSON) :
  contains "title" content = true ->
  Spec.candidate json_loads content data ->
  extract json_loads content = Some data.
Proof.
  intros Htitle (sub & Hspan & Hload & Hfield). unfold extract.
  rewrite Htitle, (snippet_brace_span Hspan), Hload, (title_in_object Hfield).
  destruct Hspan as [pre mid post -> _ _].
  change "{" with (char "{").
  now rewrite contains_char_app, contains_char_cons, Ascii.eqb_refl, orb_true_r.
Qed.

Hypothesis json_loads_decoder : Spec.decoder json_loads.

(** What the extractor accepts is a candidate of the specification. *)
Lemma extract_sound (content : string) (data : JSON) :
  extract json_loads content = Some data ->
  contains "title" content = true /\ Spec.candidate json_loads content data.
Proof.
  destruct json_loads_decoder as [Hempty Hbrace].
  unfold extract.
  destruct (contains "{" content) eqn:Hopen; [|discriminate].
  destruct (contains "title" content); [|discriminate]. simpl.
  destruct (json_loads (snippet content)) as [d|] eqn:Hload; [|discriminate].
  destruct (Py.title_in d) as [[|]|] eqn:Hin; try discriminate.
  intros [= <-]. split; [reflexivity|].
  destruct (snippet_cases content Hopen) as [Hspan|Hnil].
  - exists (snippet content). repeat split; try assumption.
    inversion Hspan as [pre mid post Hc Hpre Hpost Hsub].
    rewrite <- Hsub in Hload. destruct (Hbrace _ _ Hload) as [m ->].
    exists m. split; [reflexivity|]. simpl in Hin. now injection Hin.
  - rewrite Hnil, Hempty in Hload. discriminate.
Qed.

Lemma extract_object (content : string) (data : JSON) :
  extract json_loads content = Some data -> Spec.has_title_field data.
Proof.
  intros H. destruct (extract_sound _ H) as [_ (sub & _ & _ & Hf)]. exact Hf.
Qed.

(** A message whose slice decodes to an object with a [title] field has
    that object as a candidate of the specification. *)
Lemma candidate_by_snippet (content : string) (data : JSON) :
  contains "{" content = true ->
  json_loads (snippet content) = Some data ->
  Spec.has_title_field data ->
  Spec.candidate json_loads content data.
Proof.
  intros Hopen Hload Hfield.
  destruct (snippet_cases content Hopen) as [Hspan|Hnil].
  - now exists (snippet content).
  - rewrite Hnil in Hload. destruct json_loads_decoder as [Hempty _]. congruence.
Qed.

End Extractor.

(* ------------------------------------------------------------------------- *)
(** * The loop over the stream, and the loop over the items *)
(* ------------------------------------------------------------------------- *)

Section Runner.

Variable json_loads : string -> option JSON.
Variable json_dumps : JSON -> string.

Lemma absorb_offers (final_json : JSON) (m : Message) :
  absorb json_loads final_json m =
  match Spec.offers json_loads m with Some data => data | None => final_json end.
Proof. now destruct m. Qed.

(** The loop retains the most recent candidate. *)
Lemma fold_absorb (messages : list Message) :
  forall final_json,
    fold_left (absorb json_loads) messages final_json =
    match Spec.last_candidate json_loads messages with Some data => data | None => final_json end.
Proof.
  induction messages as [|m rest IH]; intros j; simpl; [reflexivity|].
  rewrite IH, absorb_offers. now destruct (Spec.last_candidate json_loads rest).
Qed.

Lemma last_candidate_app (before after : list Message) :
  Spec.last_candidate json_loads (before ++ after) =
  match Spec.last_candidate json_loads after with
  | Some data => Some data
  | None => Spec.last_candidate json_loads before
  end.
Proof.
  induction before as [|m rest IH]; simpl.
  - now destruct (Spec.last_candidate json_loads after).
  - rewrite IH. now destruct (Spec.last_candidate json_loads after).
Qed.

Lemma last_candidate_none (messages : list Message) :
  Forall (fun m => Spec.offers json_loads m = None) messages <->
  Spec.last_candidate json_loads messages = None.
Proof.
  induction messages as [|m rest IH]; simpl.
  - split; [reflexivity | constructor].
  - split.
    + intros H. inversion H as [|? ? Hm Hrest]; subst.
      apply IH in Hrest. now rewrite Hrest.
    + intros H. destruct (Spec.last_candidate json_loads rest) eqn:E; [discriminate|].
      constructor; [exact H | now apply IH].
Qed.

Lemma last_candidate_truthy (messages : list Message) (data : JSON) :
  Spec.last_candidate json_loads messages = Some data -> Py.truthy data = true.
Proof.
  induction messages as [|m rest IH]; simpl; [discriminate|].
  destruct (Spec.last_candidate json_loads rest) as [d|].
  - intros [= <-]. now apply IH.
  - destruct m as [source content|]; simpl; [|discriminate].
    apply extract_truthy.
Qed.

(** [process_single_item] returns the most recent candidate of its
    stream, and the fallback record when there is none. *)
Lemma process_single_item_result (run_stream : string -> Stream)
      (row_id source_type text : string) :
  fst (process_single_item json_loads run_stream row_id source_type text) =
  match Spec.last_candidate json_loads (yielded (run_stream (task_msg row_id text))) with
  | Some data => data
  | None => fallback row_id
  end.
Proof.
  unfold process_single_item, accepted. rewrite fold_absorb.
  destruct (Spec.last_candidate json_loads _) as [d|] eqn:E.
  - now rewrite (last_candidate_truthy _ E).
  - reflexivity.
Qed.

(** What [process_single_item] prints: the error that ended the stream,
    if any. *)
Lemma process_single_item_printed (run_stream : string -> Stream)
      (row_id source_type text : string) :
  snd (process_single_item json_loads run_stream row_id source_type text) =
  match raised (run_stream (task_msg row_id text)) with
  | Some e => [("⚠️ Error processing " ++ row_id ++ ": " ++ exn_message e)%string]
  | None => []
  end.
Proof.
  unfold process_single_item.
  now destruct (negb (Py.truthy (accepted json_loads _))).
Qed.

Lemma make_ticket_object (item : Item) (members : dict) :
  make_ticket json_dumps item (JObject members) =
  Ok {| ticket_id := ("TKT-" ++ id item)%string;
        title := Spec.field_or (JObject members) "title" "Untitled";
        category := Spec.field_or (JObject members) "category" "Uncategorized";
        priority := Spec.field_or (JObject members) "priority" "Low";
        details :=
          json_dumps (match Dict.get members "details" with
                      | Some v => v
                      | None => JObject []
                      end);
        source_id := id item;
        source_type := type item |}.
Proof. reflexivity. Qed.

Hypothesis json_loads_decoder : Spec.decoder json_loads.

Lemma last_candidate_object (messages : list Message) (data : JSON) :
  Spec.last_candidate json_loads messages = Some data -> Spec.has_title_field data.
Proof.
  induction messages as [|m rest IH]; simpl; [discriminate|].
  destruct (Spec.last_candidate json_loads rest) as [d|].
  - intros [= <-]. now apply IH.
  - destruct m as [source content|]; simpl; [|discriminate].
    now apply extract_object.
Qed.

(** Under the decoder's contract the result is a dict. *)
Lemma process_single_item_object (run_stream : string -> Stream)
      (row_id source_type text : string) :
  exists members,
    fst (process_single_item json_loads run_stream row_id source_type text)
    = JObject members.
Proof.
  rewrite process_single_item_result.
  destruct (Spec.last_candidate json_loads _) as [d|] eqn:E.
  - destruct (last_candidate_object _ E) as (m & -> & _). now exists m.
  - eexists. reflexivity.
Qed.

Lemma ticket_of_ok (run_stream : string -> Stream) (item : Item) :
  exists ticket,
    ticket_of json_loads json_dumps run_stream item = Ok ticket /\
    source_id ticket = id item.
Proof.
  unfold ticket_of.
  destruct (process_single_item_object run_stream (id item) (type item) (text item))
    as [m ->].
  rewrite make_ticket_object. eexists. split; reflexivity.
Qed.

(** The batch loop makes the ticket of each item from the item and the
    stream of its own team, and keeps the order of the items. *)
Lemma run_from_tickets (team_run : nat -> string -> Stream) (n : nat)
      (items : list Item) :
  forall i,
  exists tickets printed,
    run_from json_loads json_dumps team_run i n items = Ok (tickets, printed) /\
    length tickets = length items /\
    map source_id tickets = map id items /\
    forall k item,
      nth_error items k = Some item ->
      incl (snd (process_single_item json_loads (team_run (i + k))
                                     (id item) (type item) (text item))) printed /\
      exists ticket,
        nth_error tickets k = Some ticket /\
        ticket_of json_loads json_dumps (team_run (i + k)) item = Ok ticket.
Proof.
  induction items as [|item rest IH]; intros i.
  - exists [], []. do 3 (split; [reflexivity|]).
    intros [|k] it H; discriminate.
  - destruct (IH (S i)) as (tickets & printed & Hrun & Hlen & Hids & Hnth).
    destruct (ticket_of_ok (team_run i) item) as (ticket & Hticket & Hid).
    unfold ticket_of in Hticket.
    simpl run_from.
    destruct (process_single_item json_loads (team_run i) (id item) (type item)
                                  (text item)) as [result out] eqn:Hp.
    simpl in Hticket. rewrite Hticket. simpl. rewrite Hrun. simpl.
    eexists _, _. split; [reflexivity|].
    split; [simpl; now rewrite Hlen|].
    split; [simpl; now rewrite Hid, Hids|].
    intros [|k] it Hk; simpl in Hk.
    + injection Hk as <-. rewrite Nat.add_0_r, Hp. split.
      * intros line Hline. right. apply in_or_app. now left.
      * exists ticket. split; [reflexivity|].
        unfold ticket_of. rewrite Hp. exact Hticket.
    + destruct (Hnth k it Hk) as (Hincl & t & Ht & Hof).
      replace (i + S k) with (S i + k) by lia. split.
      * intros line Hline. right. apply in_or_app. right. now apply Hincl.
      * exists t. split; [exact Ht | exact Hof].
Qed.

(** A message whose slice does not decode offers no candidate of the
    specification. *)
Lemma undecodable_no_candidate (content : string) :
  json_loads (snippet content) = None ->
  forall data, ~ Spec.candidate json_loads content data.
Proof.
  intros Hnone data (sub & Hspan & Hload & _).
  rewrite (snippet_brace_span Hspan) in Hnone. congruence.
Qed.

(** A stream without candidates of the specification offers nothing to
    the loop. *)
Lemma no_candidate_no_offer (messages : list Message) :
  (forall source content data,
      In (TextMessage source content) messages ->
      ~ Spec.candidate json_loads content data) ->
  Spec.last_candidate json_loads messages = None.
Proof.
  intros H. apply last_candidate_none, Forall_forall.
  intros [source content|] Hin; [|reflexivity]. simpl.
  destruct (extract json_loads content) as [data|] eqn:E; [|reflexivity].
  destruct (extract_sound json_loads_decoder _ E) as [_ Hc].
  destruct (H _ _ _ Hin Hc).
Qed.

(** The ticket of an item depends on the stream of its own task only. *)
Lemma ticket_of_ext (run_stream run_stream' : string -> Stream) (item : Item) :
  run_stream' (task_msg (id item) (text item))
  = run_stream (task_msg (id item) (text item)) ->
  ticket_of json_loads json_dumps run_stream' item
  = ticket_of json_loads json_dumps run_stream item.
Proof.
  intros H. unfold ticket_of, process_single_item. now rewrite H.
Qed.

Lemma run_all_one_ticket_from_items (team_run : nat -> string -> Stream)
      (items : list Item) :
  exists tickets printed,
    run_all json_loads json_dumps team_run items = Ok (tickets, printed) /\
    map source_id tickets = map id items.
Proof.
  destruct (run_from_tickets team_run (length items) items 0)
    as (tickets & printed & Hrun & _ & Hids & _).
  now exists tickets, printed.
Qed.

End Runner.

(* ------------------------------------------------------------------------- *)
(** * The scheduler's state machine *)
(* ------------------------------------------------------------------------- *)

Module SchedulerFacts.

Import Scheduler.

Section Run.

Variable chat : RoundRobinGroupChat.

Lemma after_succ (k : nat) : after chat (S k) = turn chat (after chat k).
Proof. reflexivity. Qed.

Lemma invariant_initial : invariant chat initial.
Proof.
  unfold invariant; simpl. repeat split; [lia | constructor].
Qed.

Lemma invariant_turn (st : State) : invariant chat st -> invariant chat (turn chat st).
Proof.
  intros (Hlen & Hcap & Hst). unfold turn.
  destruct (status st) eqn:Es.
  - destruct Hst as [Hfail Hquiet].
    destruct (Nat.leb_spec (max_turns chat) (turns_taken st)) as [Hge|Hlt].
    + unfold invariant; simpl. auto.
    + destruct (next_stage chat st) as [agent|].
      * destruct (produce agent (context st)) as [output|e].
        -- unfold invariant; simpl. rewrite length_app, Hlen. simpl.
           split; [lia|]. split; [lia|].
           destruct (PyStr.contains (termination_condition chat) output) eqn:Eo.
           ++ split; [reflexivity|]. eexists _, _. split; [reflexivity|].
              split; [exact Hquiet | exact Eo].
           ++ split; [reflexivity|]. apply Forall_app. split; [exact Hquiet|].
              constructor; [exact Eo | constructor].
        -- unfold invariant; simpl. auto.
      * unfold invariant; simpl. auto.
  - unfold invariant. rewrite Es. auto.
  - unfold invariant. rewrite Es. auto.
Qed.

Lemma invariant_after (k : nat) : invariant chat (after chat k).
Proof.
  induction k as [|k IH]; [exact invariant_initial|].
  rewrite after_succ. now apply invariant_turn.
Qed.

(** A terminal state has no transition. *)
Lemma turn_terminal (st : State) : status st <> Running -> turn chat st = st.
Proof. unfold turn. destruct (status st); congruence. Qed.

Lemma after_terminal (k k' : nat) :
  status (after chat k) <> Running -> k <= k' -> after chat k' = after chat k.
Proof.
  intros Hterm Hle. induction Hle as [|k' Hle IH]; [reflexivity|].
  rewrite after_succ, IH. now apply turn_terminal.
Qed.

(** A scheduler still running after [k] transitions has taken [k]
    turns. *)
Lemma running_turns (k : nat) :
  status (after chat k) = Running -> turns_taken (after chat k) = k.
Proof.
  induction k as [|k IH]; [reflexivity|].
  rewrite after_succ. unfold turn.
  destruct (status (after chat k)) eqn:Es; try (rewrite Es; discriminate).
  destruct (Nat.leb (max_turns chat) (turns_taken (after chat k))); [discriminate|].
  destruct (next_stage chat (after chat k)) as [agent|]; [|discriminate].
  destruct (produce agent (context (after chat k))); [|discriminate].
  simpl. intros _. now rewrite IH.
Qed.

(** Every run reaches a terminal state. *)
Lemma run_terminal : status (run chat) <> Running.
Proof.
  intros H. unfold run in *.
  pose proof (running_turns _ H) as Ht.
  destruct (invariant_after (S (max_turns chat))) as (_ & Hcap & _). lia.
Qed.

(** An entry that contains the token is the last one, of an approved
    run. *)
Lemma mention_is_last (st : State) (t : nat) (e : Entry) :
  invariant chat st ->
  nth_error (context st) t = Some e ->
  mentions chat e = true ->
  status st = Approved /\ failure st = None /\
  length (context st) = S t /\ turns_taken st = S t.
Proof.
  intros (Hlen & _ & Hst) Hnth Hm.
  assert (Hquiet : forall l, Forall (fun e => mentions chat e = false) l ->
                             forall i, nth_error l i = Some e -> False).
  { intros l Hl i Hi. apply nth_error_In in Hi.
    rewrite Forall_forall in Hl. specialize (Hl _ Hi). congruence. }
  destruct (status st).
  - destruct Hst as [_ Hq]. destruct (Hquiet _ Hq _ Hnth).
  - destruct Hst as (Hfail & before & last & Hctx & Hq & _).
    assert (Ht : t = length before).
    { destruct (Nat.lt_ge_cases t (length before)) as [Hlt|Hge].
      - rewrite Hctx, nth_error_app1 in Hnth by exact Hlt.
        destruct (Hquiet _ Hq _ Hnth).
      - assert (Hb : t < length (context st))
          by (apply nth_error_Some; congruence).
        rewrite Hctx, length_app in Hb. simpl in Hb. lia. }
    assert (Hl : length (context st) = S t)
      by (rewrite Hctx, length_app; simpl; lia).
    repeat split; congruence.
  - destruct (Hquiet _ Hst _ Hnth).
Qed.

End Run.

End SchedulerFacts.

(* ------------------------------------------------------------------------- *)
(** * Properties of the pipeline *)
(* ------------------------------------------------------------------------- *)

(** ** The batch *)

(** C1.  For every sequence of items the batch loop returns exactly one
    ticket per item, in the order of the items: the ticket at position [k]
    is the one made from the item at position [k] and from the run of that
    item's team. *)
Theorem run_all_one_ticket_per_item
        (json_loads : string -> option JSON) (json_dumps : JSON -> string)
        (team_run : nat -> string -> Stream) (items : list Item) :
  Spec.decoder json_loads ->
  exists tickets printed,
    run_all json_loads json_dumps team_run items = Ok (tickets, printed) /\
    length tickets = length items /\
    map source_id tickets = map id items /\
    forall k item,
      nth_error items k = Some item ->
      exists ticket,
        nth_error tickets k = Some ticket /\
        ticket_of json_loads json_dumps (team_run k) item = Ok ticket.
Proof.
  intros Hdec. unfold run_all.
  destruct (run_from_tickets json_dumps Hdec team_run (length items) items 0)
    as (tickets & printed & Hrun & Hlen & Hids & Hnth).
  exists tickets, printed. repeat split; try assumption.
  intros k item Hk. exact (proj2 (Hnth k item Hk)).
Qed.

Lemma run_all_one_ticket_per_item_witness :
  Spec.decoder Json.loads /\
  exists tickets printed,
    run_all Json.loads Json.dumps Samples.healthy_batch [Samples.R1; Samples.E1]
    = Ok (tickets, printed) /\
    length tickets = 2 /\
    map source_id tickets = ["R1"; "E1"]%string /\
    forall k item,
      nth_error [Samples.R1; Samples.E1] k = Some item ->
      exists ticket,
        nth_error tickets k = Some ticket /\
        ticket_of Json.loads Json.dumps (Samples.healthy_batch k) item = Ok ticket.
Proof.
  split; [exact JsonFacts.loads_decoder|].
  exact (run_all_one_ticket_per_item Json.dumps Samples.healthy_batch
           [Samples.R1; Samples.E1] JsonFacts.loads_decoder).
Defined.

(** ** The runner *)

(** C2.  When no message of an item's run has a brace span that decodes to
    an object with a [title] field, the record returned for the item is
    exactly the fallback record. *)
Theorem no_candidate_gives_fallback
        (json_loads : string -> option JSON) (run_stream : string -> Stream)
        (row_id source_type text : string) :
  Spec.decoder json_loads ->
  (forall source content data,
      In (TextMessage source content) (yielded (run_stream (task_msg row_id text))) ->
      ~ Spec.candidate json_loads content data) ->
  fst (process_single_item json_loads run_stream row_id source_type text) =
  JObject [("title", JString ("Error Processing " ++ row_id));
           ("category", JString "Error");
           ("priority", JString "Low");
           ("details", JObject [("error", JString "Agents did not produce valid JSON")])]%string.
Proof.
  intros Hdec Hnone.
  rewrite process_single_item_result, (no_candidate_no_offer Hdec _ Hnone).
  reflexivity.
Qed.

Lemma no_candidate_gives_fallback_witness :
  fst (process_single_item Json.loads (Scheduler.run_stream Samples.idle)
                           "R1" "Review" "App crashes on login") =
  JObject [("title", JString "Error Processing R1");
           ("category", JString "Error");
           ("priority", JString "Low");
           ("details", JObject [("error", JString "Agents did not produce valid JSON")])]%string.
Proof.
  apply (no_candidate_gives_fallback (Scheduler.run_stream Samples.idle)
           "R1" "Review" "App crashes on login" JsonFacts.loads_decoder).
  intros source content data Hin.
  apply undecodable_no_candidate.
  vm_compute in Hin.
  repeat (destruct Hin as [Hin|Hin];
          [injection Hin as <- <-; vm_compute; reflexivity|]).
  destruct Hin as [Hin|[]]. discriminate.
Defined.

(** What the loop accepts last is what it retains: a message the
    extractor accepts supersedes whatever was accepted before it, and the
    messages after it that the extractor does not accept leave it in
    place. *)
Lemma last_accepted_wins
      (json_loads : string -> option JSON) (run_stream : string -> Stream)
      (row_id source_type text : string)
      (before after : list Message) (source content : string) (data : JSON) :
  yielded (run_stream (task_msg row_id text))
  = before ++ TextMessage source content :: after ->
  extract json_loads content = Some data ->
  Forall (fun m => Spec.offers json_loads m = None) after ->
  accepted json_loads (yielded (run_stream (task_msg row_id text))) = data /\
  fst (process_single_item json_loads run_stream row_id source_type text) = data.
Proof.
  intros Hy Hc Hafter.
  assert (Hlast : Spec.last_candidate json_loads
                    (yielded (run_stream (task_msg row_id text))) = Some data).
  { rewrite Hy, last_candidate_app. simpl.
    apply last_candidate_none in Hafter. rewrite Hafter. simpl.
    now rewrite Hc. }
  split.
  - unfold accepted. now rewrite fold_absorb, Hlast.
  - now rewrite process_single_item_result, Hlast.
Qed.

(** C3, as stated, fails when the later valid candidate spells its key
    with an escape: the ticket creator emits [{"title":"x"}] and, two turns
    later, [{"\u0074itle":"y"}].  Both are candidates of the
    specification, the later one decoding to the object whose title is
    [y]; but the later message does not contain the letters [title], the
    loop passes it over, and the record of the item is the earlier
    object. *)
Lemma later_escaped_candidate_is_skipped :
  Spec.candidate Json.loads Samples.bare_title (JObject [("title", JString "x")]%string) /\
  Spec.candidate Json.loads MoreSamples.escaped_y (JObject [("title", JString "y")]%string) /\
  fst (process_single_item Json.loads MoreSamples.escaped_stream
                           "R1" "Review" "App crashes on login")
  = JObject [("title", JString "x")]%string.
Proof.
  split; [|split].
  - apply (candidate_by_snippet JsonFacts.loads_decoder); [reflexivity | reflexivity |].
    eexists. split; reflexivity.
  - apply (candidate_by_snippet JsonFacts.loads_decoder); [reflexivity | reflexivity |].
    eexists. split; reflexivity.
  - vm_compute. reflexivity.
Qed.

(** C3, amended.  The record retained for an item is the most recent
    candidate among the messages that contain the letters [title]: such a
    candidate supersedes whatever was accepted before it, and a later
    message that is invalid, that does not parse, or that does not contain
    the letters [title] leaves it in place. *)
Theorem last_spelled_candidate_wins
        (json_loads : string -> option JSON) (run_stream : string -> Stream)
        (row_id source_type text : string)
        (before after : list Message) (source content : string) (data : JSON) :
  Spec.decoder json_loads ->
  yielded (run_stream (task_msg row_id text))
  = before ++ TextMessage source content :: after ->
  PyStr.contains "title" content = true ->
  Spec.candidate json_loads content data ->
  (forall later_source later_content later_data,
      In (TextMessage later_source later_content) after ->
      PyStr.contains "title" later_content = true ->
      ~ Spec.candidate json_loads later_content later_data) ->
  accepted json_loads (yielded (run_stream (task_msg row_id text))) = data /\
  fst (process_single_item json_loads run_stream row_id source_type text) = data.
Proof.
  intros Hdec Hy Htitle Hcand Hafter.
  apply (@last_accepted_wins json_loads run_stream row_id source_type text
           before after source content data Hy).
  - now apply extract_complete.
  - apply Forall_forall. intros [src c|] Hin; [|reflexivity]. simpl.
    destruct (extract json_loads c) as [d|] eqn:E; [|reflexivity].
    destruct (extract_sound Hdec _ E) as [Ht Hc].
    destruct (Hafter _ _ _ Hin Ht Hc).
Qed.

Lemma last_spelled_candidate_wins_witness :
  accepted Json.loads (yielded (Samples.revised_stream (task_msg "R1" "App crashes on login")))
  = Samples.login_ticket /\
  fst (process_single_item Json.loads Samples.revised_stream
                           "R1" "Review" "App crashes on login")
  = Samples.login_ticket.
Proof.
  apply (@last_spelled_candidate_wins Json.loads Samples.revised_stream
           "R1" "Review" "App crashes on login"
           [TextMessage "user" (task_msg "R1" "App crashes on login");
            TextMessage "Ticket_Creator" Samples.bare_title;
            TextMessage "Quality_Critic" "The priority is missing."]
           [TextMessage "Quality_Critic" "Fine, but {title} should be shorter"; Event]
           "Ticket_Creator" Samples.creator_output Samples.login_ticket
           JsonFacts.loads_decoder).
  - reflexivity.
  - reflexivity.
  - apply (candidate_by_snippet JsonFacts.loads_decoder);
      [reflexivity | vm_compute; reflexivity |].
    eexists. split; reflexivity.
  - intros later_source later_content later_data Hin _.
    apply undecodable_no_candidate.
    destruct Hin as [Hin|[Hin|[]]]; [|discriminate].
    injection Hin as _ <-. vm_compute. reflexivity.
Defined.

(** ** The extractor *)

(** C4, as stated, fails on a message whose only spelling of the key uses
    an escape: the brace span of [{"\u0074itle":"x"}] decodes to an object
    that has a [title] field, yet the extractor, which first looks for the
    letters [title] in the message, yields no candidate. *)
Lemma escaped_title_is_missed :
  Spec.candidate Json.loads Samples.escaped_title (JObject [("title", JString "x")]%string)
  /\ extract Json.loads Samples.escaped_title = None.
Proof.
  split; [|reflexivity].
  exists Samples.escaped_title. split; [|split].
  - exact (@Spec.BraceSpan Samples.escaped_title ""
             (Samples.quoted "\u0074itle" ++ ":" ++ Samples.quoted "x")%string ""
             eq_refl eq_refl eq_refl).
  - reflexivity.
  - eexists. split; reflexivity.
Qed.

(** C4, amended.  The extractor yields a candidate exactly when the
    message contains the letters [title] and the substring from its first
    opening to its last closing brace decodes to an object with a [title]
    field.  A message without such braces, or whose substring does not
    decode, yields no candidate and raises nothing.  The scan is applied to
    every text message of the run, whichever its source. *)
Theorem extract_accepts_spelled_candidates (json_loads : string -> option JSON) :
  Spec.decoder json_loads ->
  (forall content data,
      extract json_loads content = Some data <->
      PyStr.contains "title" content = true /\ Spec.candidate json_loads content data) /\
  (forall content,
      (forall sub, ~ Spec.brace_span content sub) -> extract json_loads content = None) /\
  (forall content sub,
      Spec.brace_span content sub -> json_loads sub = None ->
      extract json_loads content = None) /\
  (forall messages source content,
      accepted json_loads (messages ++ [TextMessage source content]) =
      match extract json_loads content with
      | Some data => data
      | None => accepted json_loads messages
      end).
Proof.
  intros Hdec.
  assert (Hiff : forall content data,
             extract json_loads content = Some data <->
             PyStr.contains "title" content = true
             /\ Spec.candidate json_loads content data).
  { intros content data. split.
    - apply extract_sound, Hdec.
    - intros [Ht Hc]. now apply extract_complete. }
  split; [exact Hiff|]. split; [|split].
  - intros content Hnone.
    destruct (extract json_loads content) as [data|] eqn:E; [|reflexivity].
    apply Hiff in E as [_ (sub & Hspan & _)]. destruct (Hnone _ Hspan).
  - intros content sub Hspan Hload.
    destruct (extract json_loads content) as [data|] eqn:E; [|reflexivity].
    apply Hiff in E as [_ (sub' & Hspan' & Hload' & _)].
    rewrite <- (snippet_brace_span Hspan), (snippet_brace_span Hspan') in Hload.
    congruence.
  - intros messages source content. unfold accepted.
    now rewrite fold_left_app.
Qed.

Lemma extract_accepts_spelled_candidates_witness :
  extract Json.loads Samples.bare_title = Some (JObject [("title", JString "x")]%string) <->
  PyStr.contains "title" Samples.bare_title = true /\
  Spec.candidate Json.loads Samples.bare_title (JObject [("title", JString "x")]%string).
Proof.
  exact (proj1 (extract_accepts_spelled_candidates JsonFacts.loads_decoder)
               Samples.bare_title (JObject [("title", JString "x")]%string)).
Defined.

(** ** Failing stages *)

(** C5, as stated, fails when a stage raises after a ticket was accepted:
    the critic's turn fails, and the item's record is the ticket of the
    turn before, not the fallback record. *)
Lemma error_after_ticket_keeps_ticket :
  raised (Scheduler.run_stream Samples.failing_critic
            (task_msg "R1" "App crashes on login"))
  = Some (GenerationError "timeout") /\
  fst (process_single_item Json.loads (Scheduler.run_stream Samples.failing_critic)
                           "R1" "Review" "App crashes on login")
  = Samples.login_ticket /\
  Samples.login_ticket <> fallback "R1".
Proof.
  split; [reflexivity|]. split; [vm_compute; reflexivity|]. discriminate.
Qed.

(** C5, amended.  A [GenerationError] raised at any stage of an item's run
    ends that run, and the item's record is the most recent candidate
    accepted before the error, or the fallback record when there is none.
    The records of the other items are what they are without the error. *)
Theorem generation_error_contained
        (json_loads : string -> option JSON) (json_dumps : JSON -> string)
        (team_run team_run' : nat -> string -> Stream) (items : list Item)
        (k : nat) (item : Item) (msg : string) :
  Spec.decoder json_loads ->
  nth_error items k = Some item ->
  raised (team_run k (task_msg (id item) (text item))) = Some (GenerationError msg) ->
  (forall j task, j <> k -> team_run' j task = team_run j task) ->
  exists tickets tickets' printed printed' ticket,
    run_all json_loads json_dumps team_run items = Ok (tickets, printed) /\
    run_all json_loads json_dumps team_run' items = Ok (tickets', printed') /\
    nth_error tickets k = Some ticket /\
    make_ticket json_dumps item
      (match Spec.last_candidate json_loads
               (yielded (team_run k (task_msg (id item) (text item)))) with
       | Some data => data
       | None => fallback (id item)
       end) = Ok ticket /\
    In ("⚠️ Error processing " ++ id item ++ ": " ++ msg)%string printed /\
    forall j, j <> k -> nth_error tickets' j = nth_error tickets j.
Proof.
  intros Hdec Hitem Hraised Hsame. unfold run_all.
  destruct (run_from_tickets json_dumps Hdec team_run (length items) items 0)
    as (tickets & printed & Hrun & Hlen & _ & Hnth).
  destruct (run_from_tickets json_dumps Hdec team_run' (length items) items 0)
    as (tickets' & printed' & Hrun' & Hlen' & _ & Hnth').
  destruct (Hnth k item Hitem) as (Hincl & ticket & Hk & Hof).
  exists tickets, tickets', printed, printed', ticket.
  repeat split; try assumption.
  - unfold ticket_of in Hof. simpl in Hof.
    now rewrite process_single_item_result in Hof.
  - apply Hincl. simpl. rewrite process_single_item_printed, Hraised. now left.
  - intros j Hj.
    destruct (nth_error items j) as [it|] eqn:Ej.
    + destruct (Hnth j it Ej) as (_ & t & Ht & Hoft).
      destruct (Hnth' j it Ej) as (_ & t' & Ht' & Hoft').
      simpl in Hoft, Hoft'.
      rewrite (ticket_of_ext json_loads json_dumps (team_run j) (team_run' j) it
                 (Hsame j _ Hj)) in Hoft'.
      congruence.
    + apply nth_error_None in Ej.
      assert (H1 : nth_error tickets j = None) by (apply nth_error_None; lia).
      assert (H2 : nth_error tickets' j = None) by (apply nth_error_None; lia).
      congruence.
Qed.

Lemma generation_error_contained_witness :
  exists tickets tickets' printed printed' ticket,
    run_all Json.loads Json.dumps Samples.faulty_batch [Samples.R1; Samples.E1]
    = Ok (tickets, printed) /\
    run_all Json.loads Json.dumps Samples.healthy_batch [Samples.R1; Samples.E1]
    = Ok (tickets', printed') /\
    nth_error tickets 0 = Some ticket /\
    make_ticket Json.dumps Samples.R1
      (match Spec.last_candidate Json.loads
               (yielded (Samples.faulty_batch 0
                           (task_msg (id Samples.R1) (text Samples.R1)))) with
       | Some data => data
       | None => fallback (id Samples.R1)
       end) = Ok ticket /\
    In "⚠️ Error processing R1: timeout"%string printed /\
    forall j, j <> 0 -> nth_error tickets' j = nth_error tickets j.
Proof.
  apply (@generation_error_contained Json.loads Json.dumps
           Samples.faulty_batch Samples.healthy_batch
           [Samples.R1; Samples.E1] 0 Samples.R1 "timeout"
           JsonFacts.loads_decoder).
  - reflexivity.
  - reflexivity.
  - intros [|j] task Hj; [congruence | reflexivity].
Defined.

(** ** The scheduler *)

(** C6.  In every run of the scheduler the number of turns taken, which is
    also the number of context entries, never exceeds the configured cap,
    at any point of the run and whether or not approval is reached; the run
    reaches a terminal state; and with the cap the source configures a run
    takes at most six turns. *)
Theorem turns_within_cap (chat : Scheduler.RoundRobinGroupChat) :
  (forall k,
      Scheduler.turns_taken (Scheduler.after chat k) <= Scheduler.max_turns chat /\
      length (Scheduler.context (Scheduler.after chat k))
      = Scheduler.turns_taken (Scheduler.after chat k)) /\
  Scheduler.status (Scheduler.run chat) <> Scheduler.Running /\
  forall model_client,
    Scheduler.turns_taken (Scheduler.run (Scheduler.team model_client)) <= 6.
Proof.
  split; [|split].
  - intros k. destruct (SchedulerFacts.invariant_after chat k) as (Hlen & Hcap & _).
    split; [exact Hcap | exact Hlen].
  - apply SchedulerFacts.run_terminal.
  - intros model_client.
    destruct (SchedulerFacts.invariant_after (Scheduler.team model_client) 7)
      as (_ & Hcap & _).
    exact Hcap.
Qed.

(** C7.  If the output of the stage at turn [t + 1] (the entry at index
    [t] of the context) contains the termination token, the run is approved
    with that turn as its last: the context has no further entry, no stage
    failed after it, and every later state of the run is the same state. *)
Theorem approval_halts_run
        (chat : Scheduler.RoundRobinGroupChat) (k t : nat) (e : Scheduler.Entry) :
  nth_error (Scheduler.context (Scheduler.after chat k)) t = Some e ->
  PyStr.contains (Scheduler.termination_condition chat) (Scheduler.content e) = true ->
  Scheduler.status (Scheduler.after chat k) = Scheduler.Approved /\
  Scheduler.turns_taken (Scheduler.after chat k) = S t /\
  length (Scheduler.context (Scheduler.after chat k)) = S t /\
  Scheduler.failure (Scheduler.after chat k) = None /\
  forall k', k <= k' -> Scheduler.after chat k' = Scheduler.after chat k.
Proof.
  intros Hnth Hmention.
  destruct (@SchedulerFacts.mention_is_last chat _ t e
              (SchedulerFacts.invariant_after chat k) Hnth Hmention)
    as (Hst & Hfail & Hlen & Hturns).
  repeat split; try assumption.
  intros k' Hle. apply SchedulerFacts.after_terminal; [congruence | exact Hle].
Qed.

Lemma approval_halts_run_witness :
  let chat := Scheduler.team (Samples.approving "task") in
  Scheduler.status (Scheduler.after chat 5) = Scheduler.Approved /\
  Scheduler.turns_taken (Scheduler.after chat 5) = 5 /\
  length (Scheduler.context (Scheduler.after chat 5)) = 5 /\
  Scheduler.failure (Scheduler.after chat 5) = None /\
  forall k', 5 <= k' -> Scheduler.after chat k' = Scheduler.after chat 5.
Proof.
  intros chat.
  apply (@approval_halts_run chat 5 4
           {| Scheduler.stage_name := "Quality_Critic";
              Scheduler.content := "APPROVED" |}).
  - reflexivity.
  - reflexivity.
Defined.

(** The first scenario of the specification: the stages speak in turn, the
    critic approves, the run halts after turn 5 and the result is the
    ticket of the ticket creator. *)
Example scenario_approved :
  Scheduler.status (Scheduler.run (Scheduler.team (Samples.approving "task")))
  = Scheduler.Approved /\
  Scheduler.turns_taken (Scheduler.run (Scheduler.team (Samples.approving "task"))) = 5 /\
  fst (process_single_item Json.loads (Scheduler.run_stream Samples.approving)
                           "R1" "Review" "App crashes on login")
  = Samples.login_ticket.
Proof. repeat split; vm_compute; reflexivity. Qed.

(** The second scenario: six turns without a ticket end in the fallback
    record. *)
Example scenario_exhausted :
  Scheduler.status (Scheduler.run (Scheduler.team (Samples.idle "task")))
  = Scheduler.Exhausted /\
  Scheduler.turns_taken (Scheduler.run (Scheduler.team (Samples.idle "task"))) = 6 /\
  Spec.field_or
    (fst (process_single_item Json.loads (Scheduler.run_stream Samples.idle)
                              "R1" "Review" "App crashes on login"))
    "category" "Uncategorized"
  = JString "Error".
Proof. repeat split; vm_compute; reflexivity. Qed.

(** ** Loading the sources *)

(** C8, as stated, fails when a source cannot be read: the review file is
    empty, the email file is sound and holds an item, and [main] returns
    after reporting the error, with no item processed and nothing saved. *)
Lemma load_failure_halts_batch :
  fst (email_items (strip_columns Samples.emails)) = [Samples.E1] /\
  main Json.loads Json.dumps
       (Raise (OtherError "No columns to parse from file")) (Ok Samples.emails)
       Samples.healthy_batch
  = Ok {| stdout :=
            ["🚀 Starting AutoGen Feedback System...";
             "❌ Error loading CSV files: No columns to parse from file";
             "Please check that 'app_store_reviews.csv' and 'support_emails.csv' are in the 'data/' folder."]%string;
          saved := None |}.
Proof. split; reflexivity. Qed.

(** C8, amended.  When both sources load, a source that lacks a required
    column is skipped as a whole with a warning, a source that has its
    columns contributes every row, and the batch runs over the items of
    both, reviews first: a missing column never halts it.  A source that
    fails to load ends [main] before any item is processed: it prints
    the error and saves nothing. *)
Theorem missing_column_skips_source
        (json_loads : string -> option JSON) (json_dumps : JSON -> string)
        (reviews emails : DataFrame) (team_run : nat -> string -> Stream) :
  Spec.decoder json_loads ->
  (exists out tickets,
      main json_loads json_dumps (Ok reviews) (Ok emails) team_run = Ok out /\
      saved out = Some tickets /\
      map source_id tickets =
      map id (fst (review_items (strip_columns reviews))
              ++ fst (email_items (strip_columns emails))) /\
      (if (has_column (strip_columns reviews) "review_id"
           && has_column (strip_columns reviews) "review_text")%bool
       then length (fst (review_items (strip_columns reviews))) = length (rows reviews)
       else fst (review_items (strip_columns reviews)) = [] /\
            In "⚠️ Warning: 'app_store_reviews.csv' missing 'review_id' or 'review_text' columns."%string
               (stdout out)) /\
      (if (has_column (strip_columns emails) "email_id"
           && has_column (strip_columns emails) "body")%bool
       then length (fst (email_items (strip_columns emails))) = length (rows emails)
       else fst (email_items (strip_columns emails)) = [] /\
            In "⚠️ Warning: 'support_emails.csv' missing 'email_id' or 'body' columns."%string
               (stdout out))) /\
  (forall e read_emails,
      main json_loads json_dumps (Raise e) read_emails team_run
      = Ok {| stdout :=
                ["🚀 Starting AutoGen Feedback System...";
                 "❌ Error loading CSV files: " ++ exn_message e;
                 "Please check that 'app_store_reviews.csv' and 'support_emails.csv' are in the 'data/' folder."]%string;
              saved := None |}) /\
  (forall e,
      main json_loads json_dumps (Ok reviews) (Raise e) team_run
      = Ok {| stdout :=
                ["🚀 Starting AutoGen Feedback System...";
                 "❌ Error loading CSV files: " ++ exn_message e;
                 "Please check that 'app_store_reviews.csv' and 'support_emails.csv' are in the 'data/' folder."]%string;
              saved := None |}).
Proof.
  intros Hdec. split; [|split].
  - unfold main. cbn [bind].
    destruct (run_all_one_ticket_from_items json_dumps Hdec team_run
                (fst (review_items (strip_columns reviews))
                 ++ fst (email_items (strip_columns emails))))
      as (tickets & printed & Hrun & Hids).
    destruct (review_items (strip_columns reviews)) as [from_reviews warned1] eqn:Er.
    destruct (email_items (strip_columns emails)) as [from_emails warned2] eqn:Ee.
    cbn [fst] in *. rewrite Hrun. cbn [bind].
    eexists _, tickets. split; [reflexivity|]. split; [reflexivity|].
    split; [exact Hids|].
    unfold review_items, email_items, source_items in Er, Ee.
    split.
    + destruct (has_column (strip_columns reviews) "review_id"
                && has_column (strip_columns reviews) "review_text")%bool.
      * injection Er as <- <-. now rewrite length_map.
      * injection Er as <- <-. split; [reflexivity|]. cbn [stdout].
        apply in_or_app. right. apply in_or_app. left. now left.
    + destruct (has_column (strip_columns emails) "email_id"
                && has_column (strip_columns emails) "body")%bool.
      * injection Ee as <- <-. now rewrite length_map.
      * injection Ee as <- <-. split; [reflexivity|]. cbn [stdout].
        apply in_or_app. right. apply in_or_app. right.
        apply in_or_app. left. now left.
  - intros e read_emails. reflexivity.
  - intros e. reflexivity.
Qed.

Lemma missing_column_skips_source_witness :
  exists out tickets,
    main Json.loads Json.dumps (Ok Samples.reviews) (Ok Samples.emails_without_body)
         Samples.healthy_batch = Ok out /\
    saved out = Some tickets /\
    map source_id tickets = ["R1"]%string /\
    In "⚠️ Warning: 'support_emails.csv' missing 'email_id' or 'body' columns."%string
       (stdout out).
Proof.
  destruct (proj1 (missing_column_skips_source Json.dumps Samples.reviews
                     Samples.emails_without_body Samples.healthy_batch
                     JsonFacts.loads_decoder))
    as (out & tickets & Hmain & Hsaved & Hids & _ & Hemails).
  exists out, tickets.
  split; [exact Hmain|]. split; [exact Hsaved|]. split; [exact Hids|].
  exact (proj2 Hemails).
Defined.

(** ** The fields of a ticket *)

(** C9, as stated, fails on a ticket whose accepted object has no
    [category] field: the ticket's category is ["Uncategorized"], which is
    none of the categories of the data model. *)
Lemma category_outside_enumeration :
  exists ticket printed,
    run_all Json.loads Json.dumps (fun _ => Samples.bare_stream) [Samples.R1]
    = Ok ([ticket], printed) /\
    category ticket = JString "Uncategorized" /\
    Spec.one_of Spec.categories (category ticket) = false.
Proof.
  eexists _, _. split; [vm_compute; reflexivity|]. split; reflexivity.
Qed.

(** C9, amended.  The category of a produced ticket is the [category]
    field of the object accepted for its item, whatever value the stages
    put there, and ["Uncategorized"] when the object has no such field; its
    priority is the [priority] field, and ["Low"] when there is none.  When
    nothing was accepted they are those of the fallback record, ["Error"]
    and ["Low"], which belong to the enumerations. *)
Theorem ticket_fields_follow_candidate
        (json_loads : string -> option JSON) (json_dumps : JSON -> string)
        (team_run : nat -> string -> Stream) (items : list Item) :
  Spec.decoder json_loads ->
  exists tickets printed,
    run_all json_loads json_dumps team_run items = Ok (tickets, printed) /\
    length tickets = length items /\
    forall k item,
      nth_error items k = Some item ->
      exists ticket,
        nth_error tickets k = Some ticket /\
        match Spec.last_candidate json_loads
                (yielded (team_run k (task_msg (id item) (text item)))) with
        | Some data =>
            category ticket = Spec.field_or data "category" "Uncategorized" /\
            priority ticket = Spec.field_or data "priority" "Low"
        | None =>
            category ticket = JString "Error" /\
            priority ticket = JString "Low" /\
            Spec.one_of Spec.categories (category ticket) = true /\
            Spec.one_of Spec.priorities (priority ticket) = true
        end.
Proof.
  intros Hdec. unfold run_all.
  destruct (run_from_tickets json_dumps Hdec team_run (length items) items 0)
    as (tickets & printed & Hrun & Hlen & _ & Hnth).
  exists tickets, printed. split; [exact Hrun|]. split; [exact Hlen|].
  intros k item Hk. destruct (Hnth k item Hk) as (_ & ticket & Ht & Hof).
  exists ticket. split; [exact Ht|].
  unfold ticket_of in Hof. simpl in Hof.
  rewrite process_single_item_result in Hof.
  destruct (Spec.last_candidate json_loads _) as [data|] eqn:E.
  - destruct (last_candidate_object Hdec _ E) as (m & -> & _).
    rewrite make_ticket_object in Hof. injection Hof as <-. split; reflexivity.
  - unfold fallback in Hof. rewrite make_ticket_object in Hof.
    injection Hof as <-. repeat split; reflexivity.
Qed.

Lemma ticket_fields_follow_candidate_witness :
  Spec.decoder Json.loads /\
  exists tickets printed,
    run_all Json.loads Json.dumps Samples.faulty_batch [Samples.R1; Samples.E1]
    = Ok (tickets, printed) /\
    length tickets = 2 /\
    forall k item,
      nth_error [Samples.R1; Samples.E1] k = Some item ->
      exists ticket,
        nth_error tickets k = Some ticket /\
        match Spec.last_candidate Json.loads
                (yielded (Samples.faulty_batch k (task_msg (id item) (text item)))) with
        | Some data =>
            category ticket = Spec.field_or data "category" "Uncategorized" /\
            priority ticket = Spec.field_or data "priority" "Low"
        | None =>
            category ticket = JString "Error" /\
            priority ticket = JString "Low" /\
            Spec.one_of Spec.categories (category ticket) = true /\
            Spec.one_of Spec.priorities (priority ticket) = true
        end.
Proof.
  split; [exact JsonFacts.loads_decoder|].
  exact (ticket_fields_follow_candidate Json.dumps Samples.faulty_batch
           [Samples.R1; Samples.E1] JsonFacts.loads_decoder).
Defined.

(** ** The task message *)




(* ------------------------------------------------------------------------- *)
(** * Further properties: the task message *)
(* ------------------------------------------------------------------------- *)

Section TaskMessage.

Import PyStr PyStrFacts.

Local Open Scope string_scope.

Lemma task_msg_layout (row_id text : string) :
  task_msg row_id text
  = Layout.head ++ row_id ++ Layout.middle ++ text ++ Layout.tail.
Proof.
  unfold task_msg, Layout.head, Layout.middle, Layout.tail.
  now rewrite !append_assoc.
Qed.

(** ** Substrings *)

Lemma prefix_app (sub rest : string) : prefix sub (sub ++ rest) = true.
Proof.
  induction sub as [|a sub IH]; simpl.
  - now destruct rest.
  - destruct (ascii_dec a a) as [_|Hne]; [exact IH | now destruct Hne].
Qed.

Lemma contains_of_prefix (sub s : string) :
  prefix sub s = true -> contains sub s = true.
Proof. intros H. destruct s; cbn -[prefix]; now rewrite H. Qed.

Lemma contains_intro (sub pre post : string) :
  contains sub (pre ++ sub ++ post) = true.
Proof.
  induction pre as [|a pre IH].
  - simpl append. apply contains_of_prefix, prefix_app.
  - simpl append. cbn -[prefix].
    destruct (prefix sub (String a (pre ++ sub ++ post))); [reflexivity | exact IH].
Qed.

Lemma prefix_split (sub s : string) :
  prefix sub s = true -> exists post, s = sub ++ post.
Proof.
  revert s. induction sub as [|a sub IH]; intros s H.
  - now exists s.
  - destruct s as [|b s]; [discriminate|]. simpl in H.
    destruct (ascii_dec a b) as [->|]; [|discriminate].
    destruct (IH _ H) as [post ->]. now exists post.
Qed.

Lemma contains_split (sub s : string) :
  contains sub s = true -> exists pre post, s = pre ++ sub ++ post.
Proof.
  induction s as [|a s IH]; intros H.
  - cbn -[prefix] in H. destruct (prefix sub "") eqn:E; [|discriminate].
    destruct (prefix_split _ _ E) as [post Hp]. now exists "", post.
  - cbn -[prefix] in H.
    destruct (prefix sub (String a s)) eqn:E.
    + destruct (prefix_split _ _ E) as [post Hp]. now exists "", post.
    + destruct (IH H) as (pre & post & ->). now exists (String a pre), post.
Qed.

(** A substring of a part is a substring of the whole. *)
Lemma contains_within (sub before s after : string) :
  contains sub s = true -> contains sub (before ++ s ++ after) = true.
Proof.
  intros H. destruct (contains_split _ _ H) as (pre & post & ->).
  replace (before ++ (pre ++ sub ++ post) ++ after)
    with ((before ++ pre) ++ sub ++ (post ++ after))
    by (now rewrite !append_assoc).
  apply contains_intro.
Qed.

End TaskMessage.

Section TaskMessageScan.

Import PyStr PyStrFacts.

Local Open Scope string_scope.

Variable json_loads : string -> option JSON.

Lemma task_msg_no_brace (row_id text : string) :
  contains "{" row_id = false ->
  contains "{" text = false ->
  contains "{" (task_msg row_id text) = false.
Proof.
  intros Hid Htext. rewrite task_msg_layout.
  change "{" with (char "{") in *.
  now rewrite !contains_char_app, Hid, Htext.
Qed.

(** A brace span of the feedback text is the brace span of the task
    message, when the row id has no opening brace. *)
Lemma task_msg_brace_span (row_id text sub : string) :
  contains "{" row_id = false ->
  Spec.brace_span text sub ->
  Spec.brace_span (task_msg row_id text) sub.
Proof.
  intros Hid [pre mid post -> Hpre Hpost].
  apply (@Spec.BraceSpan _ (Layout.head ++ row_id ++ Layout.middle ++ pre) mid
                         (post ++ Layout.tail)).
  - rewrite task_msg_layout, !append_assoc. simpl. now rewrite !append_assoc.
  - change "{" with (char "{") in *.
    now rewrite !contains_char_app, Hid, Hpre.
  - change "}" with (char "}") in *.
    now rewrite contains_char_app, Hpost.
Qed.

End TaskMessageScan.

(** X1.  The fixed wording of the task message never feeds the extractor:
    when neither the row id nor the feedback text contains an opening
    brace, the task message yields no candidate, whatever the decoder. *)
Theorem task_template_offers_nothing
        (json_loads : string -> option JSON) (row_id text : string) :
  PyStr.contains "{" row_id = false ->
  PyStr.contains "{" text = false ->
  extract json_loads (task_msg row_id text) = None.
Proof.
  intros Hid Htext. unfold extract.
  now rewrite (task_msg_no_brace _ _ Hid Htext).
Qed.

Lemma task_template_offers_nothing_witness :
  extract Json.loads (task_msg "R1" "App crashes on login") = None.
Proof.
  apply (@task_template_offers_nothing Json.loads "R1" "App crashes on login");
    reflexivity.
Defined.

(** X2.  A feedback text that holds a ticket is taken for one: when the
    row id has no opening brace and the text contains the letters [title]
    and has a brace span that decodes to an object with a [title] field,
    the extractor accepts that object from the task message, and it is the
    record of the item unless a later message of the stream offers a
    candidate. *)
Theorem feedback_text_is_extracted
        (json_loads : string -> option JSON) (run_stream : string -> Stream)
        (row_id source_type text : string) (data : JSON)
        (before after : list Message) (source : string) :
  PyStr.contains "{" row_id = false ->
  PyStr.contains "title" text = true ->
  Spec.candidate json_loads text data ->
  yielded (run_stream (task_msg row_id text))
  = before ++ TextMessage source (task_msg row_id text) :: after ->
  Forall (fun m => Spec.offers json_loads m = None) after ->
  extract json_loads (task_msg row_id text) = Some data /\
  fst (process_single_item json_loads run_stream row_id source_type text) = data.
Proof.
  intros Hid Htitle (sub & Hspan & Hload & Hfield) Hy Hafter.
  assert (Hx : extract json_loads (task_msg row_id text) = Some data).
  { apply extract_complete.
    - rewrite task_msg_layout.
      replace (Layout.head ++ row_id ++ Layout.middle ++ text ++ Layout.tail)%string
        with ((Layout.head ++ row_id ++ Layout.middle) ++ text ++ Layout.tail)%string
        by (now rewrite !PyStrFacts.append_assoc).
      now apply contains_within.
    - exists sub. repeat split; try assumption.
      now apply task_msg_brace_span. }
  split; [exact Hx|].
  rewrite process_single_item_result, Hy, last_candidate_app. simpl.
  apply last_candidate_none in Hafter. rewrite Hafter. simpl. now rewrite Hx.
Qed.

Lemma feedback_text_is_extracted_witness :
  extract Json.loads (task_msg "R2" Samples.bare_title)
  = Some (JObject [("title", JString "x")]%string) /\
  fst (process_single_item Json.loads MoreSamples.approving_stream
                           "R2" "Review" Samples.bare_title)
  = JObject [("title", JString "x")]%string.
Proof.
  apply (@feedback_text_is_extracted Json.loads MoreSamples.approving_stream
           "R2" "Review" Samples.bare_title (JObject [("title", JString "x")]%string)
           [] [TextMessage "Quality_Critic" "APPROVED"; Event] "user").
  - reflexivity.
  - reflexivity.
  - exists Samples.bare_title. split; [|split].
    + exact (@Spec.BraceSpan Samples.bare_title ""
               (Samples.quoted "title" ++ ":" ++ Samples.quoted "x")%string ""
               eq_refl eq_refl eq_refl).
    + reflexivity.
    + eexists. split; reflexivity.
  - reflexivity.
  - repeat constructor.
Defined.

(* ------------------------------------------------------------------------- *)
(** * Further properties: the batch *)
(* ------------------------------------------------------------------------- *)

Section Batch.

Local Open Scope string_scope.

Variable json_loads : string -> option JSON.
Variable json_dumps : JSON -> string.
Hypothesis json_loads_decoder : Spec.decoder json_loads.

(** Two lists related position by position have related images. *)
Lemma map_eq_by_position (A B C : Type) (f : A -> C) (g : B -> C) :
  forall (l1 : list A) (l2 : list B),
    length l1 = length l2 ->
    (forall k b, nth_error l2 k = Some b ->
                 exists a, nth_error l1 k = Some a /\ f a = g b) ->
    map f l1 = map g l2.
Proof.
  induction l1 as [|a l1 IH]; intros [|b l2] Hlen Hnth; try discriminate.
  - reflexivity.
  - simpl. f_equal.
    + destruct (Hnth 0 b eq_refl) as (a' & Ha & Hf). injection Ha as <-. exact Hf.
    + apply IH; [simpl in Hlen; lia|].
      intros k b' Hk. exact (Hnth (S k) b' Hk).
Qed.

Lemma NoDup_map_injective (A B : Type) (f : A -> B) (l : list A) :
  (forall a b, f a = f b -> a = b) -> NoDup l -> NoDup (map f l).
Proof.
  intros Hinj Hl. induction Hl as [|a l Hnotin Hl IH]; simpl; constructor.
  - intros Hin. apply in_map_iff in Hin as (b & Hb & Hin).
    apply Hinj in Hb. now subst b.
  - exact IH.
Qed.

(** The fields [main] fills from the item alone. *)
Lemma ticket_of_item_fields (run_stream : string -> Stream) (item : Item)
      (ticket : Ticket) :
  ticket_of json_loads json_dumps run_stream item = Ok ticket ->
  ticket_id ticket = Layout.ticket_id_of item /\
  source_id ticket = id item /\
  source_type ticket = type item.
Proof.
  unfold ticket_of.
  destruct (process_single_item_object json_loads_decoder run_stream
              (id item) (type item) (text item)) as [m ->].
  rewrite make_ticket_object. intros [= <-]. repeat split.
Qed.

(** The record of an item always has a title. *)
Lemma process_single_item_title (run_stream : string -> Stream)
      (row_id source_type text : string) :
  exists members v,
    fst (process_single_item json_loads run_stream row_id source_type text)
    = JObject members /\
    Dict.get members "title" = Some v.
Proof.
  rewrite process_single_item_result.
  destruct (Spec.last_candidate json_loads _) as [d|] eqn:E.
  - destruct (last_candidate_object json_loads_decoder _ E) as (m & -> & Hm).
    unfold Dict.mem in Hm. destruct (Dict.get m "title") as [v|] eqn:Ev; [|discriminate].
    now exists m, v.
  - eexists _, _. split; reflexivity.
Qed.


End Batch.

(** X3.  The identifiers of the tickets follow those of the items: the
    ticket at each position carries ["TKT-"] followed by the id of the
    item at that position, and the item's type as its source type.  Hence
    the ticket ids are pairwise distinct exactly when the item ids are; a
    review and an email that share an id get the same ticket id. *)
Theorem ticket_ids_follow_items
        (json_loads : string -> option JSON) (json_dumps : JSON -> string)
        (team_run : nat -> string -> Stream) (items : list Item) :
  Spec.decoder json_loads ->
  exists tickets printed,
    run_all json_loads json_dumps team_run items = Ok (tickets, printed) /\
    map ticket_id tickets = map Layout.ticket_id_of items /\
    map source_type tickets = map type items /\
    (NoDup (map ticket_id tickets) <-> NoDup (map id items)).
Proof.
  intros Hdec. unfold run_all.
  destruct (run_from_tickets json_dumps Hdec team_run (length items) items 0)
    as (tickets & printed & Hrun & Hlen & _ & Hnth).
  assert (Hids : map ticket_id tickets = map Layout.ticket_id_of items).
  { apply map_eq_by_position; [exact Hlen|].
    intros k item Hk. destruct (Hnth k item Hk) as (_ & t & Ht & Hof).
    exists t. split; [exact Ht|].
    now destruct (ticket_of_item_fields json_dumps Hdec _ _ Hof). }
  exists tickets, printed. split; [exact Hrun|]. split; [exact Hids|]. split.
  - apply map_eq_by_position; [exact Hlen|].
    intros k item Hk. destruct (Hnth k item Hk) as (_ & t & Ht & Hof).
    exists t. split; [exact Ht|].
    now destruct (ticket_of_item_fields json_dumps Hdec _ _ Hof) as (_ & _ & H).
  - rewrite Hids.
    replace (map Layout.ticket_id_of items)
      with (map (fun s => ("TKT-" ++ s)%string) (map id items))
      by (now rewrite map_map).
    split.
    + apply NoDup_map_inv.
    + apply NoDup_map_injective. intros a b H. now injection H.
Qed.

Lemma ticket_ids_follow_items_witness :
  exists tickets printed,
    run_all Json.loads Json.dumps Samples.healthy_batch [Samples.R1; Samples.E1]
    = Ok (tickets, printed) /\
    map ticket_id tickets = ["TKT-R1"; "TKT-E1"]%string /\
    map source_type tickets = ["Review"; "Email"]%string /\
    (NoDup (map ticket_id tickets) <-> NoDup ["R1"; "E1"]%string).
Proof.
  exact (ticket_ids_follow_items Json.dumps Samples.healthy_batch
           [Samples.R1; Samples.E1] JsonFacts.loads_decoder).
Defined.

(** X4.  Every record [process_single_item] returns is a dict with a
    [title] key, be it an accepted candidate or the fallback, and the title
    of the ticket is the value under that key: the default ["Untitled"] of
    [main] never applies. *)
Theorem ticket_title_is_never_defaulted
        (json_loads : string -> option JSON) (json_dumps : JSON -> string)
        (run_stream : string -> Stream) (item : Item) :
  Spec.decoder json_loads ->
  exists ticket members v,
    fst (process_single_item json_loads run_stream (id item) (type item) (text item))
    = JObject members /\
    Dict.get members "title" = Some v /\
    ticket_of json_loads json_dumps run_stream item = Ok ticket /\
    title ticket = v.
Proof.
  intros Hdec.
  destruct (process_single_item_title Hdec run_stream (id item) (type item) (text item))
    as (m & v & Hres & Hv).
  unfold ticket_of. rewrite Hres, make_ticket_object.
  eexists _, m, v. repeat split; try assumption.
  simpl. now rewrite Hv.
Qed.

Lemma ticket_title_is_never_defaulted_witness :
  exists ticket members v,
    fst (process_single_item Json.loads (Samples.faulty_batch 0)
                             (id Samples.R1) (type Samples.R1) (text Samples.R1))
    = JObject members /\
    Dict.get members "title" = Some v /\
    ticket_of Json.loads Json.dumps (Samples.faulty_batch 0) Samples.R1 = Ok ticket /\
    title ticket = v.
Proof.
  exact (ticket_title_is_never_defaulted Json.dumps (Samples.faulty_batch 0)
           Samples.R1 JsonFacts.loads_decoder).
Defined.

(* ------------------------------------------------------------------------- *)
(** * Further properties: [main] *)
(* ------------------------------------------------------------------------- *)

Section Sources.

Local Open Scope string_scope.


Lemma source_items_missing (df : DataFrame) (id_col text_col kind warning : string) :
  (has_column df id_col && has_column df text_col)%bool = false ->
  source_items df id_col text_col kind warning = ([], [warning]).
Proof. intros H. unfold source_items. now rewrite H. Qed.


End Sources.



(** X6.  When neither source has its required columns the batch is empty
    and [main] still completes: it prints both warnings, announces zero
    items, reads no stream, and saves an empty list of tickets. *)
Theorem empty_batch_succeeds
        (json_loads : string -> option JSON) (json_dumps : JSON -> string)
        (reviews emails : DataFrame) (team_run : nat -> string -> Stream) :
  (has_column (strip_columns reviews) "review_id"
   && has_column (strip_columns reviews) "review_text")%bool = false ->
  (has_column (strip_columns emails) "email_id"
   && has_column (strip_columns emails) "body")%bool = false ->
  main json_loads json_dumps (Ok reviews) (Ok emails) team_run
  = Ok {| stdout :=
            ["🚀 Starting AutoGen Feedback System...";
             "✅ Loaded " ++ PyStr.of_nat (length (rows reviews)) ++ " reviews and "
               ++ PyStr.of_nat (length (rows emails)) ++ " emails.";
             "⚠️ Warning: 'app_store_reviews.csv' missing 'review_id' or 'review_text' columns.";
             "⚠️ Warning: 'support_emails.csv' missing 'email_id' or 'body' columns.";
             "📋 Processing 0 total feedback items...";
             nl ++ "🎉 Success! Processed 0 tickets.";
             "📂 Output saved to: outputs/generated_tickets.csv"]%string;
          saved := Some [] |}.
Proof.
  intros Hr He. unfold main. cbn [bind].
  unfold review_items, email_items.
  now rewrite (source_items_missing _ _ _ _ _ Hr), (source_items_missing _ _ _ _ _ He).
Qed.

Lemma empty_batch_succeeds_witness :
  exists out,
    main Json.loads Json.dumps (Ok Samples.emails) (Ok Samples.emails_without_body)
         Samples.healthy_batch = Ok out /\
    saved out = Some [].
Proof.
  eexists. split.
  - apply (@empty_batch_succeeds Json.loads Json.dumps Samples.emails
             Samples.emails_without_body Samples.healthy_batch); reflexivity.
  - reflexivity.
Defined.

(* ------------------------------------------------------------------------- *)
(** * Further properties: composition *)
(* ------------------------------------------------------------------------- *)

Section Composition.

Variable json_loads : string -> option JSON.
Variable json_dumps : JSON -> string.

Lemma last_candidate_text_only (messages : list Message) :
  Spec.last_candidate json_loads (filter Layout.is_text messages)
  = Spec.last_candidate json_loads messages.
Proof.
  induction messages as [|m rest IH]; [reflexivity|].
  destruct m as [source content|]; simpl; rewrite IH.
  - reflexivity.
  - now destruct (Spec.last_candidate json_loads rest).
Qed.

Hypothesis json_loads_decoder : Spec.decoder json_loads.

(** The tickets of a batch, position by position. *)
Lemma run_all_nth (team_run : nat -> string -> Stream) (items : list Item) :
  exists tickets printed,
    run_all json_loads json_dumps team_run items = Ok (tickets, printed) /\
    length tickets = length items /\
    forall k item,
      nth_error items k = Some item ->
      ticket_of json_loads json_dumps (team_run k) item
      = match nth_error tickets k with
        | Some ticket => Ok ticket
        | None => Raise (OtherError "")
        end.
Proof.
  unfold run_all.
  destruct (run_from_tickets json_dumps json_loads_decoder team_run
              (length items) items 0)
    as (tickets & printed & Hrun & Hlen & _ & Hnth).
  exists tickets, printed. split; [exact Hrun|]. split; [exact Hlen|].
  intros k item Hk. destruct (Hnth k item Hk) as (_ & t & Ht & Hof).
  simpl in Hof. now rewrite Ht.
Qed.

End Composition.

(** X7.  The batch composes: the tickets of two batches run one after the
    other, the second with the streams that follow those of the first, are
    the tickets of the concatenated batch.  This is why the tickets of the
    emails in [main] do not depend on what the reviews were, only on how
    many they were. *)
Theorem batch_of_concatenation
        (json_loads : string -> option JSON) (json_dumps : JSON -> string)
        (team_run : nat -> string -> Stream) (first second : list Item) :
  Spec.decoder json_loads ->
  exists tickets1 tickets2 printed1 printed2 printed,
    run_all json_loads json_dumps team_run first = Ok (tickets1, printed1) /\
    run_all json_loads json_dumps (fun i => team_run (length first + i)) second
    = Ok (tickets2, printed2) /\
    run_all json_loads json_dumps team_run (first ++ second)
    = Ok (tickets1 ++ tickets2, printed).
Proof.
  intros Hdec.
  destruct (run_all_nth json_dumps Hdec team_run first)
    as (t1 & p1 & Hrun1 & Hlen1 & Hnth1).
  destruct (run_all_nth json_dumps Hdec (fun i => team_run (length first + i)) second)
    as (t2 & p2 & Hrun2 & Hlen2 & Hnth2).
  destruct (run_all_nth json_dumps Hdec team_run (first ++ second))
    as (t & p & Hrun & Hlen & Hnth).
  exists t1, t2, p1, p2, p. split; [exact Hrun1|]. split; [exact Hrun2|].
  rewrite Hrun. do 2 f_equal.
  apply nth_error_ext. intros k.
  destruct (nth_error (first ++ second) k) as [item|] eqn:Ek.
  - pose proof (Hnth k item Ek) as Hk.
    assert (Hsome : k < length t)
      by (rewrite Hlen; apply nth_error_Some; congruence).
    destruct (nth_error t k) as [ticket|] eqn:Et;
      [|apply nth_error_None in Et; lia].
    destruct (Nat.lt_ge_cases k (length first)) as [Hlt|Hge].
    + rewrite nth_error_app1 in Ek by exact Hlt.
      rewrite nth_error_app1 by lia.
      pose proof (Hnth1 k item Ek) as H1. rewrite Hk in H1.
      destruct (nth_error t1 k); congruence.
    + rewrite nth_error_app2 in Ek by exact Hge.
      rewrite nth_error_app2 by lia. rewrite Hlen1.
      pose proof (Hnth2 (k - length first) item Ek) as H2. cbv beta in H2.
      replace (length first + (k - length first)) with k in H2 by lia.
      rewrite Hk in H2.
      destruct (nth_error t2 (k - length first)); congruence.
  - apply nth_error_None in Ek. rewrite length_app in Ek.
    assert (H1 : nth_error t k = None) by (apply nth_error_None; rewrite Hlen, length_app; lia).
    assert (H2 : nth_error (t1 ++ t2) k = None)
      by (apply nth_error_None; rewrite length_app; lia).
    congruence.
Qed.

Lemma batch_of_concatenation_witness :
  exists tickets1 tickets2 printed1 printed2 printed,
    run_all Json.loads Json.dumps Samples.faulty_batch [Samples.R1]
    = Ok (tickets1, printed1) /\
    run_all Json.loads Json.dumps (fun i => Samples.faulty_batch (1 + i)) [Samples.E1]
    = Ok (tickets2, printed2) /\
    run_all Json.loads Json.dumps Samples.faulty_batch ([Samples.R1] ++ [Samples.E1])
    = Ok (tickets1 ++ tickets2, printed).
Proof.
  exact (batch_of_concatenation Json.dumps Samples.faulty_batch
           [Samples.R1] [Samples.E1] JsonFacts.loads_decoder).
Defined.

(** X8.  Stream items without a text content, such as the closing summary
    of a run, never affect the record of an item: the record is the same
    when they are removed from the stream. *)
Theorem events_are_ignored
        (json_loads : string -> option JSON) (run_stream : string -> Stream)
        (row_id source_type text : string) :
  accepted json_loads (yielded (run_stream (task_msg row_id text)))
  = accepted json_loads
      (filter Layout.is_text (yielded (run_stream (task_msg row_id text)))) /\
  fst (process_single_item json_loads run_stream row_id source_type text)
  = fst (process_single_item json_loads
           (fun task => {| yielded := filter Layout.is_text (yielded (run_stream task));
                           raised := raised (run_stream task) |})
           row_id source_type text).
Proof.
  split.
  - unfold accepted. now rewrite !fold_absorb, last_candidate_text_only.
  - rewrite !process_single_item_result. cbn [yielded].
    now rewrite last_candidate_text_only.
Qed.

(* ------------------------------------------------------------------------- *)
(** * Further properties: the header of a source *)
(* ------------------------------------------------------------------------- *)

Section Header.

Import PyStr PyStrFacts.

Local Open Scope string_scope.

Lemma substring_whole (s : string) (n : nat) :
  String.length s <= n -> substring 0 n s = s.
Proof.
  revert n. induction s as [|a s IH]; intros [|n] H; simpl in *; try reflexivity; try lia.
  rewrite IH; [reflexivity | lia].
Qed.

(** ** Reversal *)

Lemma list_of_append (a b : string) :
  list_ascii_of_string (a ++ b) = (list_ascii_of_string a ++ list_ascii_of_string b)%list.
Proof. induction a as [|x a IH]; simpl; [reflexivity | now rewrite IH]. Qed.

Lemma string_of_app (l1 l2 : list ascii) :
  string_of_list_ascii (l1 ++ l2)%list
  = string_of_list_ascii l1 ++ string_of_list_ascii l2.
Proof. induction l1 as [|x l1 IH]; simpl; [reflexivity | now rewrite IH]. Qed.

Lemma rev_append (a b : string) : rev (a ++ b) = rev b ++ rev a.
Proof. unfold rev. now rewrite list_of_append, rev_app_distr, string_of_app. Qed.

Lemma rev_rev (s : string) : rev (rev s) = s.
Proof.
  unfold rev.
  now rewrite list_ascii_of_string_of_list_ascii, rev_involutive,
    string_of_list_ascii_of_string.
Qed.

Lemma spaces_snoc (n : nat) : Layout.spaces n ++ " " = String " " (Layout.spaces n).
Proof. induction n as [|n IH]; simpl; [reflexivity | now rewrite IH]. Qed.

Lemma rev_spaces (n : nat) : rev (Layout.spaces n) = Layout.spaces n.
Proof.
  induction n as [|n IH]; [reflexivity|].
  simpl Layout.spaces. change (String " " (Layout.spaces n)) with (char " " ++ Layout.spaces n).
  rewrite rev_append, IH. apply spaces_snoc.
Qed.

Lemma length_spaces (n : nat) : String.length (Layout.spaces n) = n.
Proof. induction n as [|n IH]; simpl; [reflexivity | now rewrite IH]. Qed.

(** ** Stripping *)

Lemma prefix_empty (t : string) : prefix "" t = true.
Proof. now destruct t. Qed.

Lemma drop_space (tokens : list string) (t : string) :
  tokens = Layout.leading \/ tokens = Layout.trailing ->
  drop_token tokens (String " " t) = Some t.
Proof.
  intros [-> | ->].
  - unfold Layout.leading. set (toks := map utf8 whitespace).
    vm_compute in toks. subst toks.
    cbn -[substring String.length]. rewrite prefix_empty.
    simpl. f_equal. apply substring_whole. lia.
  - unfold Layout.trailing. set (toks := map _ whitespace).
    vm_compute in toks. subst toks.
    cbn -[substring String.length]. rewrite prefix_empty.
    simpl. f_equal. apply substring_whole. lia.
Qed.

Lemma drop_plain (tokens : list string) (s : string) :
  tokens = Layout.leading \/ tokens = Layout.trailing ->
  Layout.first_plain s = true -> drop_token tokens s = None.
Proof.
  intros Htok Hs. destruct s as [|a t]; [discriminate|]. simpl in Hs.
  destruct Htok as [-> | ->].
  - unfold Layout.leading. set (toks := map utf8 whitespace). vm_compute in toks. subst toks.
    destruct a as [[] [] [] [] [] [] [] []]; try discriminate Hs; reflexivity.
  - unfold Layout.trailing. set (toks := map _ whitespace). vm_compute in toks. subst toks.
    destruct a as [[] [] [] [] [] [] [] []]; try discriminate Hs; reflexivity.
Qed.

Lemma lstrip_spaces (tokens : list string) (n : nat) (s : string) :
  tokens = Layout.leading \/ tokens = Layout.trailing ->
  Layout.first_plain s = true ->
  forall fuel, n <= fuel ->
    lstrip_tokens fuel tokens (Layout.spaces n ++ s) = s.
Proof.
  intros Htok Hs. induction n as [|n IH]; intros fuel Hfuel.
  - simpl. destruct fuel; [reflexivity|]. simpl.
    now rewrite (@drop_plain tokens s Htok Hs).
  - destruct fuel as [|fuel]; [lia|].
    simpl Layout.spaces. simpl append. cbn [lstrip_tokens].
    rewrite (@drop_space tokens _ Htok). apply IH. lia.
Qed.

(** [strip] removes the spaces around a label that begins and ends with a
    plain character, and nothing of the label. *)
Lemma strip_padded (label : string) (n m : nat) :
  Layout.trimmed label = true ->
  strip (Layout.spaces n ++ label ++ Layout.spaces m) = label.
Proof.
  intros Ht. apply andb_prop in Ht as [Hfirst Hlast].
  assert (Hfirst' : Layout.first_plain (label ++ Layout.spaces m) = true)
    by (destruct label; [discriminate | exact Hfirst]).
  unfold strip, lstrip.
  fold Layout.leading. rewrite (@lstrip_spaces Layout.leading n _ (or_introl eq_refl) Hfirst')
    by (rewrite length_append, length_spaces; lia).
  unfold rstrip. fold Layout.trailing.
  rewrite rev_append, rev_spaces.
  rewrite (@lstrip_spaces Layout.trailing m _ (or_intror eq_refl) Hlast)
    by (rewrite length_append, length_spaces; lia).
  apply rev_rev.
Qed.

End Header.

(** X9.  Spaces around a column name in the header of a source do no
    harm: when the two required column names, each beginning and ending
    with a plain character, occur in the header with any number of spaces
    before and after, the stripped header has both columns and the source
    contributes one item per row, without a warning. *)
Theorem padded_header_is_accepted
        (df : DataFrame) (id_col text_col kind warning : string)
        (n1 m1 n2 m2 : nat) :
  Layout.trimmed id_col = true ->
  Layout.trimmed text_col = true ->
  In (Layout.spaces n1 ++ id_col ++ Layout.spaces m1)%string (columns df) ->
  In (Layout.spaces n2 ++ text_col ++ Layout.spaces m2)%string (columns df) ->
  has_column (strip_columns df) id_col = true /\
  has_column (strip_columns df) text_col = true /\
  length (fst (source_items (strip_columns df) id_col text_col kind warning))
  = length (rows df) /\
  snd (source_items (strip_columns df) id_col text_col kind warning) = [].
Proof.
  intros Hid Htext Hin1 Hin2.
  assert (Hcol : forall label n m,
             Layout.trimmed label = true ->
             In (Layout.spaces n ++ label ++ Layout.spaces m)%string (columns df) ->
             has_column (strip_columns df) label = true).
  { intros label n m Ht Hin. unfold has_column. apply existsb_exists.
    exists label. split; [|apply String.eqb_refl].
    cbn [columns strip_columns]. apply in_map_iff.
    exists (Layout.spaces n ++ label ++ Layout.spaces m)%string.
    split; [now apply strip_padded | exact Hin]. }
  pose proof (Hcol _ _ _ Hid Hin1) as H1.
  pose proof (Hcol _ _ _ Htext Hin2) as H2.
  split; [exact H1|]. split; [exact H2|].
  unfold source_items. rewrite H1, H2. cbn [andb fst snd rows strip_columns].
  split; [apply length_map | reflexivity].
Qed.

Lemma padded_header_is_accepted_witness :
  has_column (strip_columns Samples.reviews) "review_id" = true /\
  has_column (strip_columns Samples.reviews) "review_text" = true /\
  length (fst (source_items (strip_columns Samples.reviews)
                            "review_id" "review_text" "Review" "warning"))
  = length (rows Samples.reviews) /\
  snd (source_items (strip_columns Samples.reviews)
                    "review_id" "review_text" "Review" "warning") = [].
Proof.
  apply (@padded_header_is_accepted Samples.reviews
           "review_id" "review_text" "Review" "warning" 1 0 0 1).
  - reflexivity.
  - reflexivity.
  - left. reflexivity.
  - right. left. reflexivity.
Defined.
